(** * Video Shorts Processing API: a shallow embedding of the request pipeline

    The development follows the TypeScript sources:
    - [types.ts]            option and metadata records, defaults;
    - [utils/validate.ts]   [validateShorts];
    - [utils/tmp.ts]        [sanitizeFilename], [rmDirRecursive], [assertFileSize];
    - [utils/ffmpeg.ts]     [getFfmpegTimeoutSec], the settle guard of [convertToShorts];
    - [routes/process.ts]   [parseProcessOptions], [processShorts].

    JavaScript numbers are IEEE-754 binary64 values ([spec_float] at
    precision 53, exponent bound 1024), strings are sequences of 8-bit
    code units, objects used as dictionaries are [gmap]s. The handler's
    effects are a state-and-exception monad over the request workspace;
    the prober, the ffmpeg child, its timer and the response stream act
    through a record of what they do during the request. Console logging
    is left out. *)

From Stdlib Require Import ZArith Lia Bool Ascii String List.
From Stdlib Require Import Floats.SpecFloat.
From stdpp Require Import base option strings pretty gmap.

Local Open Scope string_scope.
Local Open Scope Z_scope.

#[local] Set Warnings "-register-all".

(** ** JavaScript numbers *)

Definition prec : Z := 53.
Definition emax : Z := 1024.

Definition number : Type := spec_float.

Definition NaN : number := S754_nan.

(** The Number value of a mathematical integer (round to nearest, ties to
    even; overflow gives an infinity). *)
Definition num (z : Z) : number := binary_normalize prec emax z 0 false.

(** A decimal literal [a / 10^k] written in the source, e.g. [0.08]: the
    correctly rounded quotient of two exactly representable integers. *)
Definition decimal (a b : Z) : number := SFdiv prec emax (num a) (num b).

Definition isNaN (n : number) : bool :=
  match n with S754_nan => true | _ => false end.

(** [Number.isFinite] *)
Definition Number_isFinite (n : number) : bool :=
  match n with
  | S754_zero _ | S754_finite _ _ _ => true
  | S754_infinity _ | S754_nan => false
  end.

(** Relational operators; every comparison with NaN is false. *)
Definition lt (a b : number) : bool := SFltb a b.
Definition le (a b : number) : bool := SFleb a b.
Definition gt (a b : number) : bool := SFltb b a.

(** [Math.max] and [Math.min] on two numbers: NaN is contagious, and
    [+0] is larger than [-0]. *)
Definition Math_max (a b : number) : number :=
  match a, b with
  | S754_nan, _ | _, S754_nan => S754_nan
  | S754_zero sa, S754_zero sb => S754_zero (sa && sb)
  | _, _ => if SFltb a b then b else a
  end.

Definition Math_min (a b : number) : number :=
  match a, b with
  | S754_nan, _ | _, S754_nan => S754_nan
  | S754_zero sa, S754_zero sb => S754_zero (sa || sb)
  | _, _ => if SFltb b a then b else a
  end.

Definition Math_abs (a : number) : number := SFabs a.

(** ToBoolean on a number: [NaN], [+0] and [-0] are falsy. *)
Definition truthy (n : number) : bool :=
  match n with
  | S754_nan | S754_zero _ => false
  | _ => true
  end.

(** [a || b] on numbers. *)
Definition or_else (a b : number) : number := if truthy a then a else b.

(** [a ?? b] where [a] is a number: the right operand is taken only when
    the left one is [null] or [undefined], which a number never is. *)
Definition nullish_else (a b : number) : number := a.

(** ** JavaScript values found in a parsed request body

    Form fields are strings; a JSON body may hold the other kinds. An
    object or array is represented by the number its ToNumber conversion
    yields, the only thing the handler asks of it. *)

Inductive JSValue : Type :=
| JUndefined
| JNull
| JBool (b : bool)
| JNumber (n : number)
| JString (s : string)
| JObject (asNumber : number).

(** The parts of the language runtime that the model does not spell out:
    the StringToNumber conversion behind [Number(s)] and the
    Number-to-String conversion behind [String(n)] and template literals. *)
Class JSRuntime : Type := {
  StringToNumber : string -> number;
  NumberToString : number -> string
}.

Section Conversions.
Context `{JSRuntime}.

(** [Number(v)] *)
Definition Number (v : JSValue) : number :=
  match v with
  | JUndefined => NaN
  | JNull => num 0
  | JBool true => num 1
  | JBool false => num 0
  | JNumber n => n
  | JString s => StringToNumber s
  | JObject n => n
  end.
End Conversions.

(** Property access on a dictionary object: a missing key reads as
    [undefined]. *)
Definition prop (body : gmap string JSValue) (key : string) : JSValue :=
  match body !! key with
  | Some v => v
  | None => JUndefined
  end.

(** ** Strings *)

Definition code (c : ascii) : Z := Z.of_N (N_of_ascii c).

Fixpoint startsWith (s p : string) : bool :=
  match p, s with
  | EmptyString, _ => true
  | String a p', String b s' => if Ascii.eqb a b then startsWith s' p' else false
  | String _ _, EmptyString => false
  end.

(** [s.includes(needle)] *)
Fixpoint includes (s needle : string) : bool :=
  startsWith s needle ||
  match s with
  | EmptyString => false
  | String _ s' => includes s' needle
  end.

(** [s.slice(0, n)] for [n >= 0]. *)
Fixpoint slice0 (n : nat) (s : string) : string :=
  match n, s with
  | O, _ => EmptyString
  | S _, EmptyString => EmptyString
  | S n', String c s' => String c (slice0 n' s')
  end.

Fixpoint mapString (f : ascii -> ascii) (s : string) : string :=
  match s with
  | EmptyString => EmptyString
  | String c s' => String (f c) (mapString f s')
  end.

Fixpoint allChars (p : ascii -> bool) (s : string) : bool :=
  match s with
  | EmptyString => true
  | String c s' => p c && allChars p s'
  end.

(** *** [parseInt(s, 10)]

    Leading white space is skipped, one sign is accepted, and the longest
    prefix of decimal digits is read; no digit gives NaN. *)

Definition isWhiteSpace (c : ascii) : bool :=
  let k := code c in
  ((9 <=? k) && (k <=? 13)) || (k =? 32) || (k =? 160).

Fixpoint trimStart (s : string) : string :=
  match s with
  | EmptyString => EmptyString
  | String c s' => if isWhiteSpace c then trimStart s' else s
  end.

Definition digitValue (c : ascii) : option Z :=
  let k := code c in
  if (48 <=? k) && (k <=? 57) then Some (k - 48) else None.

(** The value of the leading digits of [s], given the value [acc] and the
    count [seen] of the digits read so far. *)
Fixpoint readDigits (s : string) (acc : Z) (seen : bool) : option Z :=
  match s with
  | EmptyString => if seen then Some acc else None
  | String c s' =>
      match digitValue c with
      | Some d => readDigits s' (10 * acc + d) true
      | None => if seen then Some acc else None
      end
  end.

Definition parseInt10 (s : string) : number :=
  let t := trimStart s in
  let '(negative, body) :=
    match t with
    | String "-" r => (true, r)
    | String "+" r => (false, r)
    | _ => (false, t)
    end in
  match readDigits body 0 false with
  | None => NaN
  | Some 0 => S754_zero negative
  | Some m => num (if negative then - m else m)
  end.

(** ** types.ts *)

Inductive ConversionMode : Type := pad | blur.

Definition modeName (m : ConversionMode) : string :=
  match m with pad => "pad" | blur => "blur" end.

Record VideoMetadata : Type := {
  width : number;
  height : number;
  durationSec : number;
  aspectRatio : number;
  hasAudio : bool
}.

Record ShortsValidation : Type := {
  isVertical : bool;
  aspectOk : bool;
  durationOk : bool;
  shortsEligible : bool;
  reasons : list string
}.

Record ProcessOptions : Type := {
  mode : ConversionMode;
  targetWidth : number;
  targetHeight : number;
  maxDurationSec : number;
  tolerance : number;
  forceConvert : bool
}.

Definition DEFAULT_PROCESS_OPTIONS : ProcessOptions := {|
  mode := blur;
  targetWidth := num 1080;
  targetHeight := num 1920;
  maxDurationSec := num 60;
  tolerance := decimal 8 100;
  forceConvert := false
|}.

Definition TARGET_ASPECT : number := SFdiv prec emax (num 9) (num 16).

Definition MAX_FILE_SIZE_BYTES : Z := 200 * 1024 * 1024.

(** Modelled from the spec: the constant [FFMPEG_TIMEOUT_SEC_DEFAULT] that
    [utils/ffmpeg.ts] imports from [types.ts] is not in the sources at hand;
    the documentation gives the default as 600 seconds. *)
Definition FFMPEG_TIMEOUT_SEC_DEFAULT : number := num 600.

(** ** utils/validate.ts *)

Definition push (l : list string) (x : string) : list string := l ++ [x].

Definition validateShorts (meta : VideoMetadata) (options : ProcessOptions)
  : ShortsValidation :=
  let maxDur := maxDurationSec options in
  let tol := tolerance options in
  let isVertical := gt (height meta) (width meta) in
  let aspect := aspectRatio meta in
  let aspectOk := le (Math_abs (SFsub prec emax aspect TARGET_ASPECT)) tol in
  let durationOk := le (durationSec meta) maxDur in
  let reasons := [] in
  let reasons := if negb isVertical then push reasons "NOT_VERTICAL" else reasons in
  let reasons := if negb aspectOk then push reasons "ASPECT_RATIO_MISMATCH" else reasons in
  let reasons := if negb durationOk then push reasons "DURATION_EXCEEDED" else reasons in
  let shortsEligible := durationOk && isVertical && aspectOk in
  {| isVertical := isVertical;
     aspectOk := aspectOk;
     durationOk := durationOk;
     shortsEligible := shortsEligible;
     reasons := reasons |}.

(** ** routes/process.ts: request options *)

Section ParseOptions.
Context `{JSRuntime}.

Definition parseProcessOptions (body : gmap string JSValue) : ProcessOptions :=
  let modeRaw := prop body "mode" in
  let mode :=
    match modeRaw with
    | JString "pad" => pad
    | JString "blur" => blur
    | _ => mode DEFAULT_PROCESS_OPTIONS
    end in
  let targetWidth :=
    Math_max (num 1) (Math_min (num 4096)
      (or_else (Number (prop body "targetWidth")) (targetWidth DEFAULT_PROCESS_OPTIONS))) in
  let targetHeight :=
    Math_max (num 1) (Math_min (num 4096)
      (or_else (Number (prop body "targetHeight")) (targetHeight DEFAULT_PROCESS_OPTIONS))) in
  let maxDurationSec :=
    Math_max (num 1) (Math_min (num 300)
      (or_else (Number (prop body "maxDurationSec")) (maxDurationSec DEFAULT_PROCESS_OPTIONS))) in
  let tolerance :=
    Math_max (decimal 1 1000) (Math_min (decimal 1 2)
      (nullish_else (Number (prop body "tolerance")) (tolerance DEFAULT_PROCESS_OPTIONS))) in
  let forceConvert :=
    match prop body "forceConvert" with
    | JString "true" => true
    | JBool true => true
    | _ => false
    end in
  {| mode := mode;
     targetWidth := targetWidth;
     targetHeight := targetHeight;
     maxDurationSec := maxDurationSec;
     tolerance := tolerance;
     forceConvert := forceConvert |}.
End ParseOptions.

(** ** Node's [path] module (POSIX flavour)

    [extname] and [basename] scan the path from its last code unit to its
    first, as the library does; [i] is the index of the unit [c]. *)

Definition isSlash (c : ascii) : bool := code c =? 47.
Definition isDot (c : ascii) : bool := code c =? 46.

(** The code units of [s] paired with their indices, last one first. *)
Fixpoint indexedFrom (i : Z) (s : string) (acc : list (Z * ascii)) : list (Z * ascii) :=
  match s with
  | EmptyString => acc
  | String c s' => indexedFrom (i + 1) s' ((i, c) :: acc)
  end.

Definition backwards (s : string) : list (Z * ascii) := indexedFrom 0 s [].

Definition strlen (s : string) : Z := Z.of_nat (String.length s).

(** [s.slice(from, to)] for [0 <= from] and [0 <= to]. *)
Definition slice (s : string) (from to : Z) : string :=
  substring (Z.to_nat from) (Z.to_nat (to - from)) s.

Record ExtScan : Type := {
  startDot : Z;
  startPart : Z;
  extEnd : Z;
  extMatchedSlash : bool;
  preDotState : Z;
  extDone : bool
}.

Definition extnameStep (st : ExtScan) (ic : Z * ascii) : ExtScan :=
  let '(i, c) := ic in
  if extDone st then st
  else if isSlash c then
    if negb (extMatchedSlash st)
    then {| startDot := startDot st; startPart := i + 1; extEnd := extEnd st;
            extMatchedSlash := extMatchedSlash st; preDotState := preDotState st;
            extDone := true |}
    else st
  else
    let matched := if extEnd st =? -1 then false else extMatchedSlash st in
    let e := if extEnd st =? -1 then i + 1 else extEnd st in
    let '(sd, pds) :=
      if isDot c then
        if startDot st =? -1 then (i, preDotState st)
        else (startDot st, 1)
      else if negb (startDot st =? -1) then (startDot st, -1)
      else (startDot st, preDotState st) in
    {| startDot := sd; startPart := startPart st; extEnd := e;
       extMatchedSlash := matched; preDotState := pds; extDone := false |}.

Definition extname (path : string) : string :=
  let st := fold_left extnameStep (backwards path)
              {| startDot := -1; startPart := 0; extEnd := -1;
                 extMatchedSlash := true; preDotState := 0; extDone := false |} in
  if (startDot st =? -1) || (extEnd st =? -1) || (preDotState st =? 0) ||
     ((preDotState st =? 1) && (startDot st =? extEnd st - 1) &&
      (startDot st =? startPart st + 1))
  then ""
  else slice path (startDot st) (extEnd st).

Record BaseScan : Type := {
  baseStart : Z;
  baseEnd : Z;
  baseMatchedSlash : bool;
  extIdx : Z;
  firstNonSlashEnd : Z;
  baseDone : bool
}.

Definition charAt (s : string) (i : Z) : option ascii := String.get (Z.to_nat i) s.

(** One round of the loop of [basename(path, suffix)]. *)
Definition basenameSuffixStep (suffix : string) (st : BaseScan) (ic : Z * ascii) : BaseScan :=
  let '(i, c) := ic in
  if baseDone st then st
  else if isSlash c then
    if negb (baseMatchedSlash st)
    then {| baseStart := i + 1; baseEnd := baseEnd st;
            baseMatchedSlash := baseMatchedSlash st; extIdx := extIdx st;
            firstNonSlashEnd := firstNonSlashEnd st; baseDone := true |}
    else st
  else
    let matched := if firstNonSlashEnd st =? -1 then false else baseMatchedSlash st in
    let fnse := if firstNonSlashEnd st =? -1 then i + 1 else firstNonSlashEnd st in
    let '(x, e) :=
      if 0 <=? extIdx st then
        if match charAt suffix (extIdx st) with
           | Some d => Ascii.eqb c d
           | None => false
           end
        then (extIdx st - 1, if extIdx st - 1 =? -1 then i else baseEnd st)
        else (-1, fnse)
      else (extIdx st, baseEnd st) in
    {| baseStart := baseStart st; baseEnd := e; baseMatchedSlash := matched;
       extIdx := x; firstNonSlashEnd := fnse; baseDone := false |}.

(** One round of the loop of [basename(path)] without a usable suffix. *)
Definition basenamePlainStep (st : BaseScan) (ic : Z * ascii) : BaseScan :=
  let '(i, c) := ic in
  if baseDone st then st
  else if isSlash c then
    if negb (baseMatchedSlash st)
    then {| baseStart := i + 1; baseEnd := baseEnd st;
            baseMatchedSlash := baseMatchedSlash st; extIdx := extIdx st;
            firstNonSlashEnd := firstNonSlashEnd st; baseDone := true |}
    else st
  else if baseEnd st =? -1
  then {| baseStart := baseStart st; baseEnd := i + 1; baseMatchedSlash := false;
          extIdx := extIdx st; firstNonSlashEnd := firstNonSlashEnd st;
          baseDone := false |}
  else st.

Definition basename (path suffix : string) : string :=
  let init := {| baseStart := 0; baseEnd := -1; baseMatchedSlash := true;
                 extIdx := strlen suffix - 1; firstNonSlashEnd := -1;
                 baseDone := false |} in
  if (0 <? strlen suffix) && (strlen suffix <=? strlen path) then
    if String.eqb suffix path then ""
    else
      let st := fold_left (basenameSuffixStep suffix) (backwards path) init in
      let e := if baseStart st =? baseEnd st then firstNonSlashEnd st
               else if baseEnd st =? -1 then strlen path
               else baseEnd st in
      slice path (baseStart st) e
  else
    let st := fold_left basenamePlainStep (backwards path) init in
    if baseEnd st =? -1 then "" else slice path (baseStart st) (baseEnd st).

(** [a || b] on strings: the empty string is falsy. *)
Definition or_string (a b : string) : string :=
  match a with EmptyString => b | _ => a end.

(** ** utils/tmp.ts *)

(** The class [[a-zA-Z0-9._-]] of the sanitizer's regular expression. *)
Definition allowedChar (c : ascii) : bool :=
  let k := code c in
  ((97 <=? k) && (k <=? 122)) || ((65 <=? k) && (k <=? 90)) ||
  ((48 <=? k) && (k <=? 57)) || (k =? 46) || (k =? 95) || (k =? 45).

Definition underscore : ascii := ascii_of_nat 95.

Definition sanitizeFilename (name : string) : string :=
  or_string
    (slice0 200 (mapString (fun c => if allowedChar c then c else underscore) name))
    "video".

Definition outputName : string := "output.mp4".

(** *** The request workspace as a directory tree

    [busy] marks an entry whose removal the operating system refuses
    ([unlinkSync] of a file, [rmdirSync] of a directory). Paths are entry
    names inside the workspace directory. *)

Inductive Node : Type :=
| FileNode (content : string) (busy : bool)
| DirNode (entries : list (string * Node)) (busy : bool).

Inductive Completion (A : Type) : Type :=
| Normal (a : A)
| Throw (message : string).
Arguments Normal {A} a.
Arguments Throw {A} message.

(** [rmDirRecursive] on an existing path: either the node is gone, or
    the call threw and [kept] is what is left of it. The loop drops the
    entries it has removed; a throw leaves the failing entry and every
    entry after it in place. *)
Inductive Removal : Type :=
| Removed
| Failed (kept : Node) (message : string).

Fixpoint rmNode (n : Node) : Removal :=
  match n with
  | FileNode _ _ => Failed n "ENOTDIR: not a directory, scandir"
  | DirNode entries busy =>
      let fix loop (es : list (string * Node)) : list (string * Node) * Completion unit :=
        match es with
        | [] => ([], Normal tt)
        | (name, child) :: rest =>
            match child with
            | FileNode _ b =>
                if b
                then ((name, child) :: rest, Throw "EPERM: operation not permitted, unlink")
                else loop rest
            | DirNode _ _ =>
                match rmNode child with
                | Removed => loop rest
                | Failed kept msg => ((name, kept) :: rest, Throw msg)
                end
            end
        end in
      match loop entries with
      | (kept, Throw msg) => Failed (DirNode kept busy) msg
      | (kept, Normal _) =>
          if busy
          then Failed (DirNode kept busy) "EPERM: operation not permitted, rmdir"
          else Removed
      end
  end.

(** [rmDirRecursive(dir)]: the state of [dir] afterwards and the
    completion of the call. An absent [dir] returns at once. *)
Definition rmDirRecursive (dir : option Node) : option Node * Completion unit :=
  match dir with
  | None => (None, Normal tt)
  | Some n =>
      match rmNode n with
      | Removed => (None, Normal tt)
      | Failed kept msg => (Some kept, Throw msg)
      end
  end.

Definition lookupEntry (dir : option Node) (name : string) : option Node :=
  match dir with
  | Some (DirNode entries _) => snd <$> List.find (fun e => String.eqb (fst e) name) entries
  | _ => None
  end.

Definition existsSync (dir : option Node) (name : string) : bool :=
  match lookupEntry dir name with Some _ => true | None => false end.

(** A file written into the workspace (created or overwritten). *)
Fixpoint putEntry (name : string) (n : Node) (es : list (string * Node)) : list (string * Node) :=
  match es with
  | [] => [(name, n)]
  | (k, v) :: rest =>
      if String.eqb k name then (k, n) :: rest else (k, v) :: putEntry name n rest
  end.

Definition writeFile (dir : option Node) (name content : string) : option Node :=
  match dir with
  | Some (DirNode entries busy) =>
      Some (DirNode (putEntry name (FileNode content false) entries) busy)
  | other => other
  end.

Definition assertFileSize (bytes : Z) : Completion unit :=
  if MAX_FILE_SIZE_BYTES <? bytes
  then Throw "File size exceeds 200MB limit"
  else Normal tt.

(** ** utils/ffmpeg.ts *)

Definition MIN_TIMEOUT_SEC : number := num 60.
Definition MAX_TIMEOUT_SEC : number := num 3600.

(** [raw] is [process.env.FFMPEG_TIMEOUT_SEC]; [None] is [undefined]. *)
Definition getFfmpegTimeoutSec (raw : option string) : number :=
  match raw with
  | None => FFMPEG_TIMEOUT_SEC_DEFAULT
  | Some EmptyString => FFMPEG_TIMEOUT_SEC_DEFAULT
  | Some r =>
      let n := parseInt10 r in
      if negb (Number_isFinite n) || lt n MIN_TIMEOUT_SEC
      then FFMPEG_TIMEOUT_SEC_DEFAULT
      else Math_min n MAX_TIMEOUT_SEC
  end.

(** *** The three callbacks of [convertToShorts]

    The events the child process and the timer deliver, in the order the
    event loop runs their callbacks. *)
Inductive ProcEvent : Type :=
| TimerFired
| SpawnError (message : string)
| Closed (exitCode : option Z) (signal : string) (stderr : string).

(** [settled] is the guard flag, [timerArmed] tells whether the timeout
    can still fire, [killed] whether SIGKILL was sent, and [settlements]
    lists every call of [resolve] or [reject], oldest first. *)
Record ConvertState : Type := {
  settled : bool;
  timerArmed : bool;
  killed : bool;
  settlements : list (Completion unit)
}.

Definition convertStart : ConvertState :=
  {| settled := false; timerArmed := true; killed := false; settlements := [] |}.

(** [s.slice(-n)] *)
Definition sliceLast (n : nat) (s : string) : string :=
  substring (String.length s - n)%nat n s.

Section Convert.
Context `{JSRuntime}.

Definition onTimeout (timeoutSec : number) (st : ConvertState) : ConvertState :=
  if negb (timerArmed st) then st
  else if settled st
  then {| settled := settled st; timerArmed := false; killed := killed st;
          settlements := settlements st |}
  else {| settled := true; timerArmed := false; killed := true;
          settlements := settlements st ++
            [Throw ("ffmpeg timeout after " ++ NumberToString timeoutSec ++ "s")] |}.

Definition onError (message : string) (st : ConvertState) : ConvertState :=
  if settled st then st
  else {| settled := true; timerArmed := false; killed := killed st;
          settlements := settlements st ++
            [Throw ("ffmpeg spawn failed: " ++ message)] |}.

Definition onClose (exitCode : option Z) (signal stderr : string)
    (outputExists : bool) (st : ConvertState) : ConvertState :=
  if settled st
  then {| settled := settled st; timerArmed := false; killed := killed st;
          settlements := settlements st |}
  else
    let outcome :=
      match exitCode with
      | Some 0 =>
          if negb outputExists
          then Throw "ffmpeg completed but output file missing"
          else Normal tt
      | _ =>
          Throw ("ffmpeg exited with code " ++
                 match exitCode with
                 | Some c => NumberToString (num c)
                 | None => signal
                 end ++ ". stderr: " ++ sliceLast 2000 stderr)
      end in
    {| settled := true; timerArmed := false; killed := killed st;
       settlements := settlements st ++ [outcome] |}.

Definition convertStep (timeoutSec : number) (outputExists : bool)
    (st : ConvertState) (ev : ProcEvent) : ConvertState :=
  match ev with
  | TimerFired => onTimeout timeoutSec st
  | SpawnError message => onError message st
  | Closed exitCode signal stderr => onClose exitCode signal stderr outputExists st
  end.

Definition convertRun (timeoutSec : number) (outputExists : bool)
    (events : list ProcEvent) : ConvertState :=
  fold_left (convertStep timeoutSec outputExists) events convertStart.
End Convert.

(** ** routes/process.ts: the request pipeline *)

Inductive Call : Type :=
| ProbeCall (input : string)
| TranscodeCall (input output : string) (options : ProcessOptions).

(** The workspace directory of the request and the log of the external
    tools started for it. *)
Record World : Type := {
  tmpDir : option Node;
  calls : list Call
}.

Definition M (A : Type) : Type := World -> World * Completion A.

Definition ret {A} (a : A) : M A := fun w => (w, Normal a).

Definition bind {A B} (m : M A) (k : A -> M B) : M B :=
  fun w =>
    match m w with
    | (w', Normal a) => k a w'
    | (w', Throw msg) => (w', Throw msg)
    end.

Definition lift {A} (c : Completion A) : M A := fun w => (w, c).

Notation "'let!' x ':=' m 'in' k" := (bind m (fun x => k))
  (at level 10, x name, m at level 100, k at level 200).
Notation "'run!' m 'in' k" := (bind m (fun _ => k))
  (at level 10, m at level 100, k at level 200).

Inductive StreamEvent : Type :=
| StreamEnd
| StreamError (message : string).

(** What the world outside the handler does during one request:
    the value of [process.env.FFMPEG_TIMEOUT_SEC], the settlement of the
    probe, the bytes ffmpeg leaves at its output path (if any), the events
    of the ffmpeg child and its timer in the order their callbacks run
    (there is a first one: the timer fires unless it is cleared), and the
    terminal event of the read stream piped into the response. *)
Record Env : Type := {
  envTimeoutSec : option string;
  probeResult : Completion VideoMetadata;
  ffmpegOutput : option string;
  ffmpegFirst : ProcEvent;
  ffmpegLater : list ProcEvent;
  streamEvent : StreamEvent
}.

Record UploadedFile : Type := {
  originalname : string;
  filename : string;
  size : Z
}.

Record Request : Type := {
  file : option UploadedFile;
  body : gmap string JSValue
}.

Inductive Response : Type :=
| Json (status : Z) (error : string) (message : string)
| Stream (headers : gmap string string) (content : string) (ending : StreamEvent).

(** The local variables of [processShorts] once the conversion decision
    has been carried out. *)
Record Outcome : Type := {
  options : ProcessOptions;
  meta : VideoMetadata;
  validation : ShortsValidation;
  outPath : string;
  converted : bool;
  conversionMode : ConversionMode;
  finalMeta : VideoMetadata
}.

Definition quote : string := String (ascii_of_nat 34) EmptyString.

Definition boolName (b : bool) : string := if b then "true" else "false".

(** The [try { rmDirRecursive(tmpDir) } catch { }] of the handler. *)
Definition cleanup (w : World) : World :=
  {| tmpDir := fst (rmDirRecursive (tmpDir w)); calls := calls w |}.

Section Process.
Context `{JSRuntime}.

(** [await getVideoMetadata(inputPath)]: the prober is an external
    process; its settlement comes from the environment. *)
Definition getVideoMetadata (env : Env) (inputPath : string) : M VideoMetadata :=
  fun w =>
    ({| tmpDir := tmpDir w; calls := calls w ++ [ProbeCall inputPath] |},
     probeResult env).

(** [await convertToShorts(inputPath, outPath, options)]: the child
    process may write the output file, then its events run through the
    callbacks; the promise takes the first settlement. *)
Definition convertToShorts (env : Env) (inputPath outPath : string)
    (options : ProcessOptions) : M unit :=
  fun w =>
    let timeoutSec := getFfmpegTimeoutSec (envTimeoutSec env) in
    let dir :=
      match ffmpegOutput env with
      | Some bytes => writeFile (tmpDir w) outPath bytes
      | None => tmpDir w
      end in
    let w' := {| tmpDir := dir;
                 calls := calls w ++ [TranscodeCall inputPath outPath options] |} in
    let st := convertRun timeoutSec (existsSync dir outPath)
                (ffmpegFirst env :: ffmpegLater env) in
    (w', match settlements st with
         | first :: _ => first
         | [] => Throw "promise left pending"
         end).

(** [fs.statSync(outPath)], reduced to the size it reports (taken as 0
    for a directory). *)
Definition statSync (path : string) : M Z :=
  fun w =>
    match lookupEntry (tmpDir w) path with
    | Some (FileNode content _) => (w, Normal (strlen content))
    | Some (DirNode _ _) => (w, Normal 0)
    | None => (w, Throw "ENOENT: no such file or directory, stat")
    end.

(** The bytes [fs.createReadStream(outPath)] will deliver. *)
Definition readContent (w : World) (path : string) : string :=
  match lookupEntry (tmpDir w) path with
  | Some (FileNode content _) => content
  | _ => ""
  end.

(** Lines 108-135: size check, options, probe, validation, decision. *)
Definition pipeline (env : Env) (req : Request) (f : UploadedFile) : M Outcome :=
  run! lift (assertFileSize (size f)) in
  let options := parseProcessOptions (body req) in
  let inputPath := filename f in
  let! meta := getVideoMetadata env inputPath in
  let validation := validateShorts meta options in
  let shouldConvert := forceConvert options || negb (shortsEligible validation) in
  let conversionMode := mode options in
  if shouldConvert then
    let outPath := outputName in
    run! convertToShorts env inputPath outPath options in
    ret {| options := options; meta := meta; validation := validation;
           outPath := outPath; converted := true;
           conversionMode := conversionMode;
           finalMeta := {| width := targetWidth options;
                           height := targetHeight options;
                           durationSec := durationSec meta;
                           aspectRatio :=
                             SFdiv prec emax (targetWidth options) (targetHeight options);
                           hasAudio := hasAudio meta |} |}
  else
    ret {| options := options; meta := meta; validation := validation;
           outPath := inputPath; converted := false;
           conversionMode := conversionMode;
           finalMeta := meta |}.

Definition dispositionFilename (f : UploadedFile) (converted : bool) : string :=
  let originalName := or_string (originalname f) "video" in
  let ext := or_string (extname originalName) ".mp4" in
  let base := or_string (basename originalName ext) "video" in
  let safeBase := sanitizeFilename base in
  if converted then "shorts_" ++ safeBase ++ ext else safeBase ++ ext.

Definition responseHeaders (f : UploadedFile) (o : Outcome) (statSize : Z)
  : gmap string string :=
  <["Content-Type" := "video/mp4"]>
  (<["Content-Length" := NumberToString (num statSize)]>
  (<["X-Video-Width" := NumberToString (width (finalMeta o))]>
  (<["X-Video-Height" := NumberToString (height (finalMeta o))]>
  (<["X-Video-DurationSec" := NumberToString (durationSec (finalMeta o))]>
  (<["X-Video-AspectRatio" := NumberToString (aspectRatio (finalMeta o))]>
  (<["X-Shorts-Eligible" := boolName (shortsEligible (validation o))]>
  (<["X-Converted" := boolName (converted o)]>
  (<["X-Conversion-Mode" := modeName (conversionMode o)]>
  (<["Content-Disposition" :=
       "attachment; filename=" ++ quote ++ dispositionFilename f (converted o) ++ quote]>
   ∅))))))))).

(** Lines 143-179: stat, headers, and the stream whose [end] or
    [error] event runs the cleanup. *)
Definition emit (env : Env) (f : UploadedFile) (o : Outcome) : M Response :=
  let! statSize := statSync (outPath o) in
  fun w =>
    (cleanup w,
     Normal (Stream (responseHeaders f o statSize)
                    (readContent w (outPath o))
                    (streamEvent env))).

(** The [try] block. *)
Definition tryBlock (env : Env) (req : Request) : M Response :=
  match file req with
  | None =>
      ret (Json 400 "NO_FILE"
             ("No file uploaded. Use multipart field " ++ quote ++ "file" ++ quote ++ "."))
  | Some f =>
      let! o := pipeline env req f in
      emit env f o
  end.

(** The [catch] block's choice of response, after its cleanup. *)
Definition classify (message : string) : Response :=
  if String.eqb message "FILE_NOT_VIDEO"
  then Json 415 "UNSUPPORTED_MEDIA" "File is not a video (invalid MIME type)."
  else if includes message "ffprobe" || includes message "exited with code"
  then Json 422 "PROBE_FAILED" message
  else if includes message "ffmpeg" || includes message "timeout"
  then Json 500 "CONVERSION_FAILED" message
  else if includes message "exceeds" && includes message "MB"
  then Json 400 "FILE_TOO_LARGE" message
  else if includes message "Path must be under temp" || includes message "Path traversal"
  then Json 400 "INVALID_PATH" message
  else Json 500 "UNKNOWN" message.

Definition processShorts (env : Env) (req : Request) (w : World) : World * Response :=
  match tryBlock env req w with
  | (w', Normal response) => (w', response)
  | (w', Throw message) => (cleanup w', classify message)
  end.
End Process.

(** A runtime for running the model on concrete requests: it reads and
    prints plain decimal integers, which is all the examples below use. *)
Definition integerRuntime : JSRuntime := {|
  StringToNumber := fun s =>
    match trimStart s with
    | EmptyString => num 0
    | t => match readDigits t 0 false with Some m => num m | None => NaN end
    end;
  NumberToString := fun n =>
    match n with
    | S754_zero _ => "0"
    | S754_finite s m e =>
        (if s then "-" else "") ++
        pretty (Z.shiftl (Z.pos m) e)
    | S754_infinity s => if s then "-Infinity" else "Infinity"
    | S754_nan => "NaN"
    end
|}.

(** ** Reading the claims *)

(** The eligibility criteria with their labels, in the documented order,
    and the labels of those that failed. *)
Definition criteria (v : ShortsValidation) : list (string * bool) :=
  [("NOT_VERTICAL", isVertical v);
   ("ASPECT_RATIO_MISMATCH", aspectOk v);
   ("DURATION_EXCEEDED", durationOk v)].

Definition failedLabels (v : ShortsValidation) : list string :=
  map fst (List.filter (fun c => negb (snd c)) (criteria v)).

(** The timeout as the code computes it, in words: the default for a
    missing, empty, unreadable or too small value, otherwise the value,
    capped at the maximum. *)
Definition timeoutByCases (raw : option string) : number :=
  match raw with
  | None => FFMPEG_TIMEOUT_SEC_DEFAULT
  | Some r =>
      let n := parseInt10 r in
      if String.eqb r "" then FFMPEG_TIMEOUT_SEC_DEFAULT
      else if negb (Number_isFinite n) then FFMPEG_TIMEOUT_SEC_DEFAULT
      else if lt n MIN_TIMEOUT_SEC then FFMPEG_TIMEOUT_SEC_DEFAULT
      else if le n MAX_TIMEOUT_SEC then n
      else MAX_TIMEOUT_SEC
  end.

(** The timeout as a plain clamp into the window would compute it. *)
Definition timeoutByClamp (raw : option string) : number :=
  match raw with
  | None => FFMPEG_TIMEOUT_SEC_DEFAULT
  | Some r =>
      let n := parseInt10 r in
      if isNaN n then FFMPEG_TIMEOUT_SEC_DEFAULT
      else Math_max MIN_TIMEOUT_SEC (Math_min n MAX_TIMEOUT_SEC)
  end.

(** ** Auxiliary definitions and sample data *)

Definition portrait90s : VideoMetadata :=
  {| width := num 1080; height := num 1920; durationSec := num 90;
     aspectRatio := SFdiv prec emax (num 1080) (num 1920); hasAudio := true |}.

Definition landscape48s : VideoMetadata :=
  {| width := num 952; height := num 718; durationSec := decimal 48033 1000;
     aspectRatio := SFdiv prec emax (num 952) (num 718); hasAudio := true |}.

(** The loop of [rmDirRecursive] over the entries of a directory. *)
Fixpoint rmEntries (es : list (string * Node)) : list (string * Node) * Completion unit :=
  match es with
  | [] => ([], Normal tt)
  | (name, child) :: rest =>
      match child with
      | FileNode _ b =>
          if b
          then ((name, child) :: rest, Throw "EPERM: operation not permitted, unlink")
          else rmEntries rest
      | DirNode _ _ =>
          match rmNode child with
          | Removed => rmEntries rest
          | Failed kept msg => ((name, kept) :: rest, Throw msg)
          end
      end
  end.

(** No entry of the tree refuses its removal. *)
Fixpoint removable (n : Node) : bool :=
  match n with
  | FileNode _ b => negb b
  | DirNode es b =>
      negb b &&
      (fix all (l : list (string * Node)) : bool :=
         match l with
         | [] => true
         | (_, child) :: l' => removable child && all l'
         end) es
  end.

Definition removableEntries (es : list (string * Node)) : bool :=
  forallb (fun e => removable (snd e)) es.

Section NodeInduction.
Variable P : Node -> Prop.
Hypothesis file_case : forall content busy, P (FileNode content busy).
Hypothesis dir_case :
  forall entries busy, Forall (fun e => P (snd e)) entries -> P (DirNode entries busy).

Fixpoint Node_nested_ind (n : Node) : P n :=
  match n with
  | FileNode content busy => file_case content busy
  | DirNode entries busy =>
      dir_case entries busy
        ((fix go (l : list (string * Node)) : Forall (fun e => P (snd e)) l :=
            match l with
            | [] => @List.Forall_nil _ (fun e => P (snd e))
            | (name, child) :: l' =>
                @List.Forall_cons _ (fun e => P (snd e)) (name, child) l' (Node_nested_ind child) (go l')
            end) entries)
  end.
End NodeInduction.

Definition lockedWorkspace : option Node :=
  Some (DirNode [("a.mp4", FileNode "a" true); ("output.mp4", FileNode "b" false)] false).

Definition halfLockedWorkspace : option Node :=
  Some (DirNode [("a.mp4", FileNode "a" false); ("b.mp4", FileNode "b" true);
                 ("c.mp4", FileNode "c" false)] false).

Definition isTranscode (c : Call) : bool :=
  match c with TranscodeCall _ _ _ => true | ProbeCall _ => false end.

Definition isProbe (c : Call) : bool :=
  match c with ProbeCall _ => true | TranscodeCall _ _ _ => false end.

(** How many times the transcoder, resp. the prober, was started. *)
Definition transcodes (cs : list Call) : nat := length (List.filter isTranscode cs).
Definition probes (cs : list Call) : nat := length (List.filter isProbe cs).

Definition probed (w : World) (input : string) : World :=
  {| tmpDir := tmpDir w; calls := calls w ++ [ProbeCall input] |}.

Definition convertedOutcome (o : ProcessOptions) (m : VideoMetadata) : Outcome :=
  {| options := o; meta := m; validation := validateShorts m o;
     outPath := outputName; converted := true; conversionMode := mode o;
     finalMeta := {| width := targetWidth o; height := targetHeight o;
                     durationSec := durationSec m;
                     aspectRatio := SFdiv prec emax (targetWidth o) (targetHeight o);
                     hasAudio := hasAudio m |} |}.

Definition skippedOutcome (o : ProcessOptions) (m : VideoMetadata) (input : string) : Outcome :=
  {| options := o; meta := m; validation := validateShorts m o;
     outPath := input; converted := false; conversionMode := mode o;
     finalMeta := m |}.

Definition workspaceRemovable (dir : option Node) : bool :=
  match dir with
  | None => true
  | Some (DirNode es busy) => removable (DirNode es busy)
  | Some (FileNode _ _) => false
  end.

(** The name multer's disk storage gives the staged upload (lines 72-78). *)
Definition storageFilename (originalName : string) : string :=
  let raw := or_string originalName "video" in
  let ext := or_string (extname raw) ".mp4" in
  let base := or_string (basename raw ext) "video" in
  sanitizeFilename base ++ ext.

Fixpoint repeatChar (n : nat) (c : ascii) : string :=
  match n with
  | O => EmptyString
  | S n' => String c (repeatChar n' c)
  end.

Definition portrait30s : VideoMetadata :=
  {| width := num 1080; height := num 1920; durationSec := num 30;
     aspectRatio := SFdiv prec emax (num 1080) (num 1920); hasAudio := true |}.

Definition clipUpload : UploadedFile :=
  {| originalname := "clip.mp4"; filename := storageFilename "clip.mp4"; size := 3 |}.

Definition stagedWorkspace : World :=
  {| tmpDir := Some (DirNode [("clip.mp4", FileNode "raw" false)] false); calls := [] |}.

Definition freshWorkspace : World :=
  {| tmpDir := Some (DirNode [] false); calls := [] |}.

(** The prober reports [m]; ffmpeg writes its output and exits with 0. *)
Definition calmEnv (m : VideoMetadata) : Env :=
  {| envTimeoutSec := None; probeResult := Normal m;
     ffmpegOutput := Some "converted"; ffmpegFirst := Closed (Some 0) "" "";
     ffmpegLater := [TimerFired]; streamEvent := StreamEnd |}.

Definition padBody : gmap string JSValue :=
  <["mode" := JString "pad"]> (<["tolerance" := JNumber (decimal 8 100)]> ∅).

Definition padRequest : Request := {| file := Some clipUpload; body := padBody |}.

Definition spacedUpload : UploadedFile :=
  {| originalname := "clip.m p4"; filename := storageFilename "clip.m p4"; size := 3 |}.

Definition longUpload : UploadedFile :=
  {| originalname := repeatChar 200 "a" ++ ".mp4";
     filename := storageFilename (repeatChar 200 "a" ++ ".mp4"); size := 3 |}.

(** ** routes/process.ts: the upload filter *)

Definition VIDEO_MIMES : list string :=
  ["video/mp4"; "video/quicktime"; "video/x-msvideo"; "video/webm"; "video/x-matroska"].

Definition ALLOWED_MIMES : gset string := list_to_set VIDEO_MIMES.

Definition isVideoMime (mime : string) : bool :=
  match mime with
  | EmptyString => false
  | _ =>
      if bool_decide (mime ∈ ALLOWED_MIMES) then true
      else startsWith mime "video/"
  end.

(** multer's [fileFilter]: the callback gets an error or [true]. *)
Definition fileFilter (mimetype : string) : Completion bool :=
  if negb (isVideoMime mimetype) then Throw "FILE_NOT_VIDEO" else Normal true.

(** ** server.ts: the route around the handler *)

(** An error as the error middleware reads it: [e.code] and [e.message],
    either of which may be missing. *)
Record RouteError : Type := {
  errCode : option string;
  errMessage : option string
}.

Definition errorMiddleware (e : RouteError) : Response :=
  let msg := match errMessage e with Some m => m | None => "Unknown error" end in
  if String.eqb msg "FILE_NOT_VIDEO"
  then Json 415 "UNSUPPORTED_MEDIA" "File is not a video (invalid MIME type)."
  else if match errCode e with Some c => String.eqb c "LIMIT_FILE_SIZE" | None => false end
          || includes msg "File too large"
  then Json 400 "FILE_TOO_LARGE" "File size exceeds 200MB limit."
  else if String.eqb msg "missing uniqueTmpDir" || includes msg "Unexpected field"
  then Json 400 "BAD_REQUEST"
         (if String.eqb msg "Unexpected field"
          then "Use multipart field " ++ quote ++ "file" ++ quote ++ " only."
          else msg)
  else Json 500 "INTERNAL_ERROR" msg.

Section Route.
Context `{JSRuntime}.

(** [POST /process/shorts] after [processTmpMiddleware]: [uploadError] is
    what [upload.single('file')] hands to its callback. On an error the
    workspace is removed and the error goes to the error middleware;
    otherwise the handler runs. *)
Definition routeProcessShorts (env : Env) (uploadError : option RouteError)
    (req : Request) (w : World) : World * Response :=
  match uploadError with
  | Some e => (cleanup w, errorMiddleware e)
  | None => processShorts env req w
  end.
End Route.

(** ** routes/process.ts: [inspect] *)

(** [Math.round]: the nearest integer, a tie going up; zero results keep
    the sign of the argument. *)
Definition Math_round (x : number) : number :=
  match x with
  | S754_finite s m e =>
      if 0 <=? e then x
      else
        let k := - e in
        let v := if s then Z.neg m else Z.pos m in
        let q := (2 * v + 2 ^ k) / 2 ^ (k + 1) in
        if q =? 0 then S754_zero s else num q
  | _ => x
  end.

(** [Math.round(x * 1000) / 1000] *)
Definition round3 (x : number) : number :=
  SFdiv prec emax (Math_round (SFmul prec emax x (num 1000))) (num 1000).

Record InspectReport : Type := {
  repWidth : number;
  repHeight : number;
  repDurationSec : number;
  repAspectRatio : number;
  repShortsEligible : bool;
  repReason : list string
}.

Inductive InspectResponse : Type :=
| InspectOk (report : InspectReport)
| InspectError (status : Z) (error : string) (message : string).

Definition inspectClassify (message : string) : InspectResponse :=
  if String.eqb message "FILE_NOT_VIDEO"
  then InspectError 415 "UNSUPPORTED_MEDIA" "File is not a video (invalid MIME type)."
  else if includes message "ffprobe" || includes message "exited with code"
  then InspectError 422 "PROBE_FAILED" message
  else if includes message "exceeds" && includes message "MB"
  then InspectError 400 "FILE_TOO_LARGE" message
  else InspectError 500 "UNKNOWN" message.

Section Inspect.
Context `{JSRuntime}.

(** The [try] block of [inspect]; the removal in its no-file branch is
    not guarded, so a refusal there is thrown to the [catch]. *)
Definition inspectTry (env : Env) (req : Request) : M InspectResponse :=
  match file req with
  | None =>
      run! (fun w => ({| tmpDir := fst (rmDirRecursive (tmpDir w)); calls := calls w |},
                      snd (rmDirRecursive (tmpDir w)))) in
      ret (InspectError 400 "NO_FILE"
             ("No file uploaded. Use multipart field " ++ quote ++ "file" ++ quote ++ "."))
  | Some f =>
      run! lift (assertFileSize (size f)) in
      let options := parseProcessOptions (body req) in
      let! meta := getVideoMetadata env (filename f) in
      let validation := validateShorts meta options in
      ret (InspectOk
             {| repWidth := width meta;
                repHeight := height meta;
                repDurationSec := round3 (durationSec meta);
                repAspectRatio := round3 (aspectRatio meta);
                repShortsEligible := shortsEligible validation;
                repReason := reasons validation |})
  end.

(** [try], [catch] with its own cleanup, then the cleanup of [finally]. *)
Definition inspect (env : Env) (req : Request) (w : World) : World * InspectResponse :=
  match inspectTry env req w with
  | (w', Normal response) => (cleanup w', response)
  | (w', Throw message) => (cleanup (cleanup w'), inspectClassify message)
  end.
End Inspect.

(** ** utils/ffprobe.ts *)

Module FFprobe.

(** The decoded output of the prober, as the interfaces of the source
    declare it; a missing property is [None]. *)
Record Stream : Type := {
  codec_type : string;
  width : option number;
  height : option number;
  duration : option string
}.

Record Format : Type := {
  formatDuration : option string
}.

Record Output : Type := {
  streams : option (list Stream);
  format : option Format
}.

(** The four variables the loop over the streams assigns. *)
Record Acc : Type := {
  accWidth : number;
  accHeight : number;
  accDurationSec : number;
  accHasAudio : bool
}.

Definition isVideo (s : Stream) : bool := String.eqb (codec_type s) "video".
Definition isAudio (s : Stream) : bool := String.eqb (codec_type s) "audio".

(** ToBoolean of an optional string: a missing or empty one is falsy. *)
Definition present (d : option string) : bool :=
  match d with
  | Some (String _ _) => true
  | _ => false
  end.

Section Parse.
(** [parseFloat] of the runtime. *)
Variable parseFloat : string -> number.

Definition parseOr (d : option string) (otherwise : number) : number :=
  match d with
  | Some (String c r) => parseFloat (String c r)
  | _ => otherwise
  end.

Definition step (fmt : Format) (acc : Acc) (s : Stream) : Acc :=
  let acc1 :=
    if isVideo s then
      let d := match duration s with Some d => Some d | None => formatDuration fmt end in
      {| accWidth := match width s with Some x => x | None => num 0 end;
         accHeight := match height s with Some x => x | None => num 0 end;
         accDurationSec := parseOr d (accDurationSec acc);
         accHasAudio := accHasAudio acc |}
    else acc in
  if isAudio s
  then {| accWidth := accWidth acc1; accHeight := accHeight acc1;
          accDurationSec := accDurationSec acc1; accHasAudio := true |}
  else acc1.

(** The body of the [try] in the [close] callback, after [JSON.parse]. *)
Definition metadataOf (json : Output) : Completion VideoMetadata :=
  let ss := match streams json with Some l => l | None => [] end in
  let fmt := match format json with Some f => f | None => {| formatDuration := None |} end in
  let acc := fold_left (step fmt) ss
               {| accWidth := num 0; accHeight := num 0;
                  accDurationSec := num 0; accHasAudio := false |} in
  if negb (truthy (accWidth acc)) || negb (truthy (accHeight acc))
  then Throw "ffprobe: no video stream or missing width/height"
  else
    let durationSec :=
      if le (accDurationSec acc) (num 0) && present (formatDuration fmt)
      then parseOr (formatDuration fmt) (accDurationSec acc)
      else accDurationSec acc in
    let aspectRatio :=
      if gt (accHeight acc) (num 0)
      then SFdiv prec emax (accWidth acc) (accHeight acc)
      else num 0 in
    Normal (Build_VideoMetadata (accWidth acc) (accHeight acc) durationSec
              aspectRatio (accHasAudio acc)).
End Parse.

(** What the child process does: it fails to start, or it closes with an
    exit code (none when a signal ended it), its standard output as
    [JSON.parse] reads it (a syntax error is a [Throw]) and its standard
    error. *)
Inductive Event : Type :=
| SpawnFailed (message : string)
| Exited (exitCode : option Z) (stdout : Completion Output) (stderr : string).

(** [safePath] on a path that [path.resolve] leaves as it is. *)
Definition safePath (resolved : string) : Completion string :=
  if negb (startsWith resolved "/tmp")
  then Throw "Path must be under temp directory"
  else Normal resolved.

Section Settle.
Context `{JSRuntime}.
Variable parseFloat : string -> number.

(** The settlement of the promise by the first event of the child. *)
Definition settle (ev : Event) : Completion VideoMetadata :=
  match ev with
  | SpawnFailed message => Throw ("ffprobe spawn failed: " ++ message)
  | Exited exitCode stdout stderr =>
      match exitCode with
      | Some 0 =>
          match stdout with
          | Normal json => metadataOf parseFloat json
          | Throw message => Throw ("ffprobe: failed to parse JSON: " ++ message)
          end
      | _ =>
          Throw ("ffprobe exited with code " ++
                 match exitCode with
                 | Some c => NumberToString (num c)
                 | None => "null"
                 end ++ ". stderr: " ++ stderr)
      end
  end.

(** [getVideoMetadata(filePath)] for a resolved path and the first event
    of the child. *)
Definition getVideoMetadata (resolved : string) (ev : Event) : Completion VideoMetadata :=
  match safePath resolved with
  | Throw message => Throw message
  | Normal _ => settle ev
  end.
End Settle.

End FFprobe.

(** ** Auxiliary definitions for the added properties *)

Definition notSlash (c : ascii) : bool := negb (isSlash c).

(** The state of the scan of [extname] after the code units of [s], the
    first of which has index [i], have been read from the last to the
    first. *)
Fixpoint extScan (i : Z) (s : string) : ExtScan :=
  match s with
  | EmptyString =>
      {| startDot := -1; startPart := 0; extEnd := -1;
         extMatchedSlash := true; preDotState := 0; extDone := false |}
  | String c s' => extnameStep (extScan (i + 1) s') (i, c)
  end.

(** The lowest index the scan has accepted into the last path component. *)
Definition scanLow (i : Z) (st : ExtScan) : Z :=
  if extDone st then startPart st else i.

Definition unitAt (i : Z) (s : string) (j : Z) : option ascii :=
  if j <? i then None else String.get (Z.to_nat (j - i)) s.

Definition landscapeOutput : FFprobe.Output :=
  {| FFprobe.streams := Some
       [{| FFprobe.codec_type := "audio"; FFprobe.width := None;
           FFprobe.height := None; FFprobe.duration := Some "48" |};
        {| FFprobe.codec_type := "video"; FFprobe.width := Some (num 952);
           FFprobe.height := Some (num 718); FFprobe.duration := None |}];
     FFprobe.format := Some {| FFprobe.formatDuration := Some "48" |} |}.

Definition audioOnlyOutput : FFprobe.Output :=
  {| FFprobe.streams := Some
       [{| FFprobe.codec_type := "audio"; FFprobe.width := None;
           FFprobe.height := None; FFprobe.duration := Some "12" |}];
     FFprobe.format := None |}.

(** [parseFloat] on plain decimal integers, for the samples. *)
Definition integerParseFloat : string -> number := @StringToNumber integerRuntime.

Definition hugeUpload : UploadedFile :=
  {| originalname := "clip.mp4"; filename := storageFilename "clip.mp4";
     size := MAX_FILE_SIZE_BYTES + 1 |}.

Definition isJson (r : Response) : bool :=
  match r with Json _ _ _ => true | Stream _ _ _ => false end.

Definition cleanExit (ev : ProcEvent) : bool :=
  match ev with Closed (Some 0) _ _ => true | _ => false end.

Definition isTimer (ev : ProcEvent) : bool :=
  match ev with TimerFired => true | _ => false end.

(** What the scan of [extname] keeps true after reading [s] from index
    [i] on: the end of the extension is set exactly when a unit other than
    a slash has been seen, every unit from the lowest accepted index up to
    that end is not a slash, and the dot, once found, is in that range. *)
Definition ScanInv (i : Z) (s : string) (st : ExtScan) : Prop :=
  (extMatchedSlash st = true <-> extEnd st = -1) /\
  (extEnd st = -1 -> startDot st = -1) /\
  (extDone st = true -> extEnd st <> -1) /\
  (extEnd st <> -1 -> i <= scanLow i st) /\
  (forall j c, scanLow i st <= j < extEnd st -> unitAt i s j = Some c ->
               notSlash c = true) /\
  (startDot st <> -1 -> scanLow i st <= startDot st).

Definition isNil {A : Type} (l : list A) : bool :=
  match l with [] => true | _ :: _ => false end.

Definition thousandsBody : gmap string JSValue :=
  <["tolerance" := JString "7"]> (<["maxDurationSec" := JString "100000"]> ∅).

(** A place on one line for every number other than NaN: infinities at
    the ends, zeros in the middle, finite numbers ordered by exponent and
    then mantissa as [SFcompare] orders them. *)
Definition orderKey (x : number) : Z * Z * Z :=
  match x with
  | S754_nan => (0, 0, 0)
  | S754_infinity true => (-2, 0, 0)
  | S754_infinity false => (2, 0, 0)
  | S754_zero _ => (0, 0, 0)
  | S754_finite true m e => (-1, - e, Z.neg m)
  | S754_finite false m e => (1, e, Z.pos m)
  end.

Definition keyLe (p q : Z * Z * Z) : Prop :=
  fst (fst p) < fst (fst q) \/
  (fst (fst p) = fst (fst q) /\
   (snd (fst p) < snd (fst q) \/
    (snd (fst p) = snd (fst q) /\ snd p <= snd q))).

Definition generousOptions : ProcessOptions :=
  {| mode := blur; targetWidth := num 1080; targetHeight := num 1920;
     maxDurationSec := num 120; tolerance := decimal 2 10; forceConvert := false |}.

Definition sizedBody : gmap string JSValue :=
  <["targetWidth" := JString "720"]> (<["targetHeight" := JNumber (num 1280)]> ∅).

(** * Properties *)

(** ** Comparison of numbers *)

Lemma SFcompare_antisym (a b : number) :
  SFcompare b a = option_map CompOpp (SFcompare a b).
Proof.
  destruct a as [sa|sa| |sa ma ea], b as [sb|sb| |sb mb eb];
    try reflexivity;
    try (destruct sa; reflexivity);
    try (destruct sb; reflexivity);
    try (destruct sa, sb; reflexivity).
  simpl. destruct sa, sb; try reflexivity.
  - rewrite (Z.compare_antisym ea eb).
    destruct (ea ?= eb)%Z; simpl; try reflexivity.
    do 2 f_equal. exact (eq_sym (Pos.compare_cont_antisym ma mb Eq)).
  - rewrite (Z.compare_antisym ea eb).
    destruct (ea ?= eb)%Z; simpl; try reflexivity.
    f_equal. exact (eq_sym (Pos.compare_cont_antisym ma mb Eq)).
Qed.

Lemma lt_irrefl (a : number) : lt a a = false.
Proof.
  unfold lt, SFltb.
  pose proof (SFcompare_antisym a a) as E.
  destruct (SFcompare a a) as [[]|]; simpl in E; congruence.
Qed.

Lemma lt_le (a b : number) : lt a b = true -> le a b = true.
Proof.
  unfold lt, le, SFltb, SFleb. destruct (SFcompare a b) as [[]|]; congruence.
Qed.

Lemma compare_defined (a b : number) :
  isNaN a = false -> isNaN b = false -> SFcompare a b <> None.
Proof.
  destruct a, b; simpl; try discriminate;
    repeat match goal with |- context [if ?s then _ else _] => destruct s end;
    discriminate.
Qed.

Lemma not_lt_le (a b : number) :
  isNaN a = false -> isNaN b = false -> lt a b = false -> le b a = true.
Proof.
  unfold lt, le, SFltb, SFleb. intros Ha Hb.
  rewrite (SFcompare_antisym a b).
  pose proof (compare_defined a b Ha Hb) as D.
  destruct (SFcompare a b) as [[]|]; simpl; congruence.
Qed.

Lemma lt_negb_le (a b : number) :
  isNaN a = false -> isNaN b = false -> lt b a = negb (le a b).
Proof.
  unfold lt, le, SFltb, SFleb. intros Ha Hb.
  rewrite (SFcompare_antisym a b).
  pose proof (compare_defined a b Ha Hb) as D.
  destruct (SFcompare a b) as [[]|]; simpl; congruence.
Qed.

Lemma Math_min_finite (s : bool) (m : positive) (e : Z) (x : number) :
  isNaN x = false ->
  Math_min (S754_finite s m e) x =
    if lt x (S754_finite s m e) then x else S754_finite s m e.
Proof. destruct x; simpl; intros; try reflexivity; discriminate. Qed.

Lemma Math_min_finite_r (s : bool) (m : positive) (e : Z) (x : number) :
  Number_isFinite x = true -> truthy x = true ->
  Math_min x (S754_finite s m e) =
    if lt (S754_finite s m e) x then S754_finite s m e else x.
Proof. destruct x; simpl; intros; try reflexivity; discriminate. Qed.

Lemma Math_max_finite (s : bool) (m : positive) (e : Z) (x : number) :
  isNaN x = false ->
  Math_max (S754_finite s m e) x =
    if lt (S754_finite s m e) x then x else S754_finite s m e.
Proof. destruct x; simpl; intros; try reflexivity; discriminate. Qed.

Lemma or_else_not_NaN (a d : number) : isNaN d = false -> isNaN (or_else a d) = false.
Proof. unfold or_else. destruct a; simpl; auto. Qed.

(** Clamping a number that is not NaN between two positive constants
    lands between them. *)
Lemma clamp_between (slo shi : bool) (mlo mhi : positive) (elo ehi : Z) (x : number) :
  let lo := S754_finite slo mlo elo in
  let hi := S754_finite shi mhi ehi in
  le lo lo = true -> le lo hi = true -> le hi hi = true ->
  isNaN x = false ->
  le lo (Math_max lo (Math_min hi x)) = true /\
  le (Math_max lo (Math_min hi x)) hi = true.
Proof.
  intros lo hi Hll Hlh Hhh Hx. subst lo hi.
  rewrite (Math_min_finite _ _ _ _ Hx).
  destruct (lt x (S754_finite shi mhi ehi)) eqn:Hxh.
  - rewrite (Math_max_finite _ _ _ _ Hx).
    destruct (lt (S754_finite slo mlo elo) x) eqn:Hlx.
    + split; now apply lt_le.
    + split; assumption.
  - rewrite Math_max_finite by reflexivity.
    destruct (lt (S754_finite slo mlo elo) (S754_finite shi mhi ehi)); split; assumption.
Qed.

(** ** Request options *)

(** The target dimensions always lie in [1, 4096], whatever the body
    holds. *)
Lemma parseProcessOptions_target_bounds `{JSRuntime} (body : gmap string JSValue) :
  let o := parseProcessOptions body in
  le (num 1) (targetWidth o) = true /\ le (targetWidth o) (num 4096) = true /\
  le (num 1) (targetHeight o) = true /\ le (targetHeight o) (num 4096) = true.
Proof.
  cbv zeta. unfold parseProcessOptions. cbn [targetWidth targetHeight].
  assert (B : forall x, isNaN x = false ->
            le (num 1) (Math_max (num 1) (Math_min (num 4096) x)) = true /\
            le (Math_max (num 1) (Math_min (num 4096) x)) (num 4096) = true).
  { intros x Hx.
    change (num 1) with (S754_finite false 4503599627370496 (-52)).
    change (num 4096) with (S754_finite false 4503599627370496 (-40)).
    now apply clamp_between. }
  destruct (B (or_else (Number (prop body "targetWidth")) (targetWidth DEFAULT_PROCESS_OPTIONS)))
    as [W1 W2]; [now apply or_else_not_NaN|].
  destruct (B (or_else (Number (prop body "targetHeight")) (targetHeight DEFAULT_PROCESS_OPTIONS)))
    as [H1 H2]; [now apply or_else_not_NaN|].
  auto.
Qed.

(** A body without a [tolerance] field: [Number(undefined)] is NaN, the
    [??] keeps it, and the clamp hands it on. *)
Lemma parseProcessOptions_tolerance_absent `{JSRuntime} (body : gmap string JSValue) :
  body !! "tolerance" = None ->
  tolerance (parseProcessOptions body) = NaN.
Proof.
  intros E. unfold parseProcessOptions, prop. cbn [tolerance]. rewrite E.
  reflexivity.
Qed.

(** C2: with the empty request body the returned tolerance is NaN, not the
    documented default 0.08 (which is a number and compares equal to
    itself, as NaN does not). *)
Theorem parseProcessOptions_empty_body_tolerance `{JSRuntime} :
  tolerance (parseProcessOptions ∅) = NaN /\
  SFeqb (tolerance (parseProcessOptions ∅)) (tolerance DEFAULT_PROCESS_OPTIONS) = false /\
  tolerance DEFAULT_PROCESS_OPTIONS = S754_finite false 5764607523034235 (-56).
Proof. repeat split; reflexivity. Qed.

(** ** Eligibility *)

Lemma push_nil (x : string) : push [] x = [x].
Proof. reflexivity. Qed.

(** C3: [validateShorts] reports the three criteria as the comparisons of
    the metadata with the options, is eligible exactly when all three hold,
    treats equal dimensions as not vertical, and lists the labels of the
    failed criteria, and only those, in the order NOT_VERTICAL,
    ASPECT_RATIO_MISMATCH, DURATION_EXCEEDED; with a single failed criterion
    the list is that one label. *)
Theorem validateShorts_criteria_and_reasons (meta : VideoMetadata) (options : ProcessOptions) :
  let v := validateShorts meta options in
  isVertical v = gt (height meta) (width meta) /\
  aspectOk v =
    le (Math_abs (SFsub prec emax (aspectRatio meta) TARGET_ASPECT)) (tolerance options) /\
  durationOk v = le (durationSec meta) (maxDurationSec options) /\
  shortsEligible v = isVertical v && aspectOk v && durationOk v /\
  (forall side d a au,
     isVertical (validateShorts
       {| width := side; height := side; durationSec := d;
          aspectRatio := a; hasAudio := au |} options) = false) /\
  reasons v = failedLabels v /\
  (isVertical v = false -> aspectOk v = true -> durationOk v = true ->
     reasons v = ["NOT_VERTICAL"]) /\
  (isVertical v = true -> aspectOk v = false -> durationOk v = true ->
     reasons v = ["ASPECT_RATIO_MISMATCH"]) /\
  (isVertical v = true -> aspectOk v = true -> durationOk v = false ->
     reasons v = ["DURATION_EXCEEDED"]).
Proof.
  cbv zeta. unfold validateShorts, failedLabels, criteria.
  cbn [isVertical aspectOk durationOk shortsEligible reasons].
  repeat split.
  - destruct (le (durationSec meta) (maxDurationSec options)),
             (gt (height meta) (width meta)),
             (le _ (tolerance options)); reflexivity.
  - intros side d a au. apply lt_irrefl.
  - destruct (gt (height meta) (width meta)),
             (le _ (tolerance options)),
             (le (durationSec meta) (maxDurationSec options)); reflexivity.
  - intros -> -> ->. reflexivity.
  - intros -> -> ->. reflexivity.
  - intros -> -> ->. reflexivity.
Qed.

(** A portrait 9:16 clip of 90 seconds fails the duration criterion only. *)
Lemma validateShorts_single_violation :
  reasons (validateShorts portrait90s DEFAULT_PROCESS_OPTIONS) = ["DURATION_EXCEEDED"] /\
  shortsEligible (validateShorts portrait90s DEFAULT_PROCESS_OPTIONS) = false.
Proof.
  destruct (validateShorts_criteria_and_reasons portrait90s DEFAULT_PROCESS_OPTIONS)
    as (_ & _ & _ & E & _ & _ & _ & _ & D).
  split.
  - apply D; reflexivity.
  - rewrite E. reflexivity.
Defined.

(** The documented 952x718 clip of 48.033 seconds. *)
Example validateShorts_landscape :
  validateShorts landscape48s DEFAULT_PROCESS_OPTIONS =
    {| isVertical := false; aspectOk := false; durationOk := true;
       shortsEligible := false;
       reasons := ["NOT_VERTICAL"; "ASPECT_RATIO_MISMATCH"] |}.
Proof. reflexivity. Qed.

(** ** The transcode timeout *)

Lemma finite_not_NaN (n : number) :
  Number_isFinite n = true -> isNaN n = false.
Proof. destruct n; simpl; congruence. Qed.

Lemma getFfmpegTimeoutSec_by_cases (raw : option string) :
  getFfmpegTimeoutSec raw = timeoutByCases raw.
Proof.
  destruct raw as [r|]; [|reflexivity].
  destruct r as [|c r]; [reflexivity|].
  unfold getFfmpegTimeoutSec, timeoutByCases.
  change (String.eqb (String c r) "") with false. cbv iota.
  set (n := parseInt10 (String c r)).
  destruct (Number_isFinite n) eqn:F; [|reflexivity]. simpl negb. simpl orb.
  destruct (lt n MIN_TIMEOUT_SEC) eqn:L; [reflexivity|].
  assert (T : truthy n = true).
  { destruct n; try discriminate; reflexivity. }
  change MAX_TIMEOUT_SEC with (S754_finite false 7916483719987200 (-41)).
  rewrite Math_min_finite_r by assumption.
  rewrite (lt_negb_le n _) by (try reflexivity; now apply finite_not_NaN).
  now destruct (le n _).
Qed.

(** C7 (amended): the budget is the default of 600 seconds when the
    variable is unset, empty, not a finite integer, or below the minimum of
    60; otherwise it is the configured value, capped at 3600. It always
    lies in the window from 60 to 3600. *)
Theorem getFfmpegTimeoutSec_default_or_capped (raw : option string) :
  getFfmpegTimeoutSec raw = timeoutByCases raw /\
  le MIN_TIMEOUT_SEC (getFfmpegTimeoutSec raw) = true /\
  le (getFfmpegTimeoutSec raw) MAX_TIMEOUT_SEC = true.
Proof.
  split; [apply getFfmpegTimeoutSec_by_cases|].
  rewrite getFfmpegTimeoutSec_by_cases. unfold timeoutByCases.
  destruct raw as [r|]; [|split; reflexivity].
  cbv zeta. destruct (String.eqb r ""); [split; reflexivity|].
  destruct (Number_isFinite (parseInt10 r)) eqn:F; [|split; reflexivity]. simpl negb.
  destruct (lt (parseInt10 r) MIN_TIMEOUT_SEC) eqn:L; [split; reflexivity|].
  destruct (le (parseInt10 r) MAX_TIMEOUT_SEC) eqn:U; [|split; reflexivity].
  split; [|assumption].
  apply not_lt_le; [now apply finite_not_NaN|reflexivity|assumption].
Qed.

(** C7 (as stated): a configured value of 30 seconds is below the window;
    a clamp would give the minimum 60, the code gives the default 600. *)
Lemma getFfmpegTimeoutSec_below_minimum :
  timeoutByClamp (Some "30") = MIN_TIMEOUT_SEC /\
  getFfmpegTimeoutSec (Some "30") = FFMPEG_TIMEOUT_SEC_DEFAULT /\
  SFeqb (getFfmpegTimeoutSec (Some "30")) (timeoutByClamp (Some "30")) = false.
Proof. repeat split; reflexivity. Qed.

Example getFfmpegTimeoutSec_samples :
  getFfmpegTimeoutSec None = num 600 /\
  getFfmpegTimeoutSec (Some "") = num 600 /\
  getFfmpegTimeoutSec (Some "abc") = num 600 /\
  getFfmpegTimeoutSec (Some "59") = num 600 /\
  getFfmpegTimeoutSec (Some "60") = num 60 /\
  getFfmpegTimeoutSec (Some "900") = num 900 /\
  getFfmpegTimeoutSec (Some "3600") = num 3600 /\
  getFfmpegTimeoutSec (Some "99999") = num 3600.
Proof. repeat split; reflexivity. Qed.

(** ** The settle guard of [convertToShorts] *)

Section ConvertGuard.
Context `{JSRuntime}.
Variables (timeoutSec : number) (outputExists : bool).

(** Once the flag is set no callback settles the promise again. *)
Lemma convertStep_settled (st : ConvertState) (ev : ProcEvent) :
  settled st = true ->
  settled (convertStep timeoutSec outputExists st ev) = true /\
  settlements (convertStep timeoutSec outputExists st ev) = settlements st.
Proof.
  intros S. destruct ev; simpl.
  - unfold onTimeout. rewrite S. destruct (timerArmed st); auto.
  - unfold onError. rewrite S. auto.
  - unfold onClose. rewrite S. auto.
Qed.

Lemma convertRun_settled (events : list ProcEvent) (st : ConvertState) :
  settled st = true ->
  settlements (fold_left (convertStep timeoutSec outputExists) events st) = settlements st.
Proof.
  revert st. induction events as [|ev events IH]; intros st S; [reflexivity|].
  simpl. destruct (convertStep_settled st ev S) as [S' E].
  now rewrite IH.
Qed.

(** The first callback to run sets the flag and settles once. *)
Lemma convertStep_first (ev : ProcEvent) :
  settled (convertStep timeoutSec outputExists convertStart ev) = true /\
  exists outcome,
    settlements (convertStep timeoutSec outputExists convertStart ev) = [outcome].
Proof. destruct ev; simpl; split; eauto. Qed.

(** C8: whatever events reach the callbacks and in whatever order --
    the timer firing, a spawn error, the process closing -- the first
    one settles the promise and every later one performs no resolution
    or rejection: there is exactly one settlement, the first event's. *)
Theorem convertToShorts_settles_exactly_once (first : ProcEvent) (later : list ProcEvent) :
  settlements (convertRun timeoutSec outputExists []) = [] /\
  settlements (convertRun timeoutSec outputExists (first :: later)) =
    settlements (convertRun timeoutSec outputExists [first]) /\
  length (settlements (convertRun timeoutSec outputExists (first :: later))) = 1%nat /\
  settled (convertRun timeoutSec outputExists [first]) = true.
Proof.
  destruct (convertStep_first first) as [S [outcome E]].
  assert (R : settlements (convertRun timeoutSec outputExists (first :: later)) =
              settlements (convertRun timeoutSec outputExists [first])).
  { unfold convertRun. simpl. now apply convertRun_settled. }
  repeat split; try assumption.
  rewrite R. unfold convertRun. simpl. now rewrite E.
Qed.
End ConvertGuard.

(** The timeout racing the exit, in both orders. *)
Example convertToShorts_race :
  settlements (convertRun (H:=integerRuntime) (num 600) true
                 [TimerFired; Closed None "SIGKILL" ""]) =
    [Throw "ffmpeg timeout after 600s"] /\
  settlements (convertRun (H:=integerRuntime) (num 600) true
                 [Closed (Some 0) "" ""; TimerFired]) =
    [Normal tt] /\
  settlements (convertRun (H:=integerRuntime) (num 600) true
                 [SpawnError "ENOENT"; Closed (Some (-2)) "" ""; TimerFired]) =
    [Throw "ffmpeg spawn failed: ENOENT"].
Proof. repeat split; reflexivity. Qed.

(** ** Removing the workspace *)

Lemma rmNode_dir (es : list (string * Node)) (busy : bool) :
  rmNode (DirNode es busy) =
    match rmEntries es with
    | (kept, Throw msg) => Failed (DirNode kept busy) msg
    | (kept, Normal _) =>
        if busy
        then Failed (DirNode kept busy) "EPERM: operation not permitted, rmdir"
        else Removed
    end.
Proof.
  simpl.
  match goal with |- match ?loop es with _ => _ end = _ =>
    assert (E : forall l, loop l = rmEntries l)
  end.
  { induction l as [|[name child] l IH]; [reflexivity|].
    simpl. destruct child as [c b|sub b].
    - destruct b; [reflexivity|apply IH].
    - destruct (rmNode (DirNode sub b)); [apply IH|reflexivity]. }
  now rewrite E.
Qed.

Lemma removable_dir (es : list (string * Node)) (busy : bool) :
  removable (DirNode es busy) = negb busy && removableEntries es.
Proof.
  simpl. f_equal. induction es as [|[name child] es IH]; [reflexivity|].
  simpl. now rewrite IH.
Qed.

Lemma rmEntries_normal (es kept : list (string * Node)) (u : unit) :
  rmEntries es = (kept, Normal u) -> kept = [].
Proof.
  induction es as [|[name child] es IH]; simpl.
  - congruence.
  - destruct child as [c b|sub b].
    + destruct b; [discriminate|apply IH].
    + destruct (rmNode (DirNode sub b)); [apply IH|discriminate].
Qed.

Lemma rmNode_failed_dir (es : list (string * Node)) (busy : bool) (k : Node) (msg : string) :
  rmNode (DirNode es busy) = Failed k msg -> exists kept, k = DirNode kept busy.
Proof.
  rewrite rmNode_dir. destruct (rmEntries es) as [kept [u|m]].
  - destruct busy; [|discriminate]. intros [= <- _]. eauto.
  - intros [= <- _]. eauto.
Qed.

(** A failed removal fails again, the same way, and changes nothing more. *)
Lemma rmNode_failed_again (n k : Node) (msg : string) :
  rmNode n = Failed k msg -> rmNode k = Failed k msg.
Proof.
  revert k msg. induction n as [c b|es busy IH] using Node_nested_ind; intros k msg.
  - simpl. intros [= <- <-]. reflexivity.
  - assert (L : forall kept m, rmEntries es = (kept, Throw m) ->
                               rmEntries kept = (kept, Throw m)).
    { clear k msg. induction IH as [|[name child] l Hc _ IHl]; intros kept m.
      - simpl. discriminate.
      - simpl in *. destruct child as [c b|sub b].
        + destruct b.
          * intros [= <- <-]. reflexivity.
          * apply IHl.
        + destruct (rmNode (DirNode sub b)) as [|k' m'] eqn:R.
          * apply IHl.
          * intros [= <- <-].
            destruct (rmNode_failed_dir _ _ _ _ R) as [kept' ->].
            cbn [rmEntries]. rewrite (Hc _ _ eq_refl). reflexivity. }
    rewrite rmNode_dir. destruct (rmEntries es) as [kept [u|m]] eqn:R.
    + destruct busy; [|discriminate]. intros [= <- <-].
      rewrite (rmEntries_normal _ _ _ R). reflexivity.
    + intros [= <- <-]. rewrite rmNode_dir, (L _ _ eq_refl). reflexivity.
Qed.

Lemma rmNode_removable_node (n : Node) :
  removable n = true ->
  match n with
  | FileNode _ _ => True
  | DirNode _ _ => rmNode n = Removed
  end.
Proof.
  induction n as [c b|l bz IH] using Node_nested_ind; [trivial|].
  rewrite removable_dir, rmNode_dir. intros [Hb Hl]%andb_prop.
  assert (E : rmEntries l = ([], Normal tt)).
  { clear Hb. induction IH as [|[name child] l' Hc _ IHl]; [reflexivity|].
    cbn [removableEntries forallb snd] in Hl. apply andb_prop in Hl as [Hc' Hl'].
    cbn [rmEntries snd] in *. destruct child as [c b|sub b].
    - simpl in Hc'. destruct b; [discriminate|]. now apply IHl.
    - rewrite (Hc Hc'). now apply IHl. }
  rewrite E. now destruct bz.
Qed.

(** A directory none of whose entries is busy is removed whole. *)
Lemma rmNode_removable (es : list (string * Node)) (busy : bool) :
  removable (DirNode es busy) = true -> rmNode (DirNode es busy) = Removed.
Proof. exact (rmNode_removable_node (DirNode es busy)). Qed.

(** The loop removes removable entries and stops at the first file whose
    removal is refused. *)
Lemma rmEntries_stops (pre rest : list (string * Node)) (name content : string) :
  removableEntries pre = true ->
  rmEntries (pre ++ (name, FileNode content true) :: rest) =
    ((name, FileNode content true) :: rest,
     Throw "EPERM: operation not permitted, unlink").
Proof.
  induction pre as [|[n child] pre IH]; [reflexivity|].
  intros [Hc Hp]%andb_prop. simpl in Hc. simpl.
  destruct child as [c b|sub b].
  - simpl in Hc. destruct b; [discriminate|]. now apply IH.
  - rewrite (rmNode_removable _ _ Hc). now apply IH.
Qed.

(** C9 (amended): [rmDirRecursive] returns without error on an absent
    directory, and calling it again after any call changes nothing more and
    completes as the first call did; but a refused removal is thrown to the
    caller: the entries before the refused file are gone, the file and
    every entry after it stay, and the directory stays. *)
Theorem rmDirRecursive_idempotent_but_throws (dir : option Node) :
  rmDirRecursive None = (None, Normal tt) /\
  rmDirRecursive (fst (rmDirRecursive dir)) = rmDirRecursive dir /\
  (snd (rmDirRecursive dir) = Normal tt -> fst (rmDirRecursive dir) = None) /\
  (forall pre rest name content busy,
     removableEntries pre = true ->
     rmDirRecursive (Some (DirNode (pre ++ (name, FileNode content true) :: rest) busy)) =
       (Some (DirNode ((name, FileNode content true) :: rest) busy),
        Throw "EPERM: operation not permitted, unlink")).
Proof.
  repeat split.
  - destruct dir as [n|]; [|reflexivity]. simpl.
    destruct (rmNode n) as [|k msg] eqn:R; [reflexivity|].
    simpl. now rewrite (rmNode_failed_again _ _ _ R).
  - destruct dir as [n|]; [|reflexivity]. simpl.
    destruct (rmNode n); [reflexivity|discriminate].
  - intros pre rest name content busy Hp. unfold rmDirRecursive.
    rewrite rmNode_dir, (rmEntries_stops _ _ _ _ Hp). reflexivity.
Qed.

Lemma rmDirRecursive_stops_at_refusal :
  rmDirRecursive halfLockedWorkspace =
    (Some (DirNode [("b.mp4", FileNode "b" true); ("c.mp4", FileNode "c" false)] false),
     Throw "EPERM: operation not permitted, unlink").
Proof.
  destruct (rmDirRecursive_idempotent_but_throws None) as (_ & _ & _ & T).
  exact (T [("a.mp4", FileNode "a" false)] [("c.mp4", FileNode "c" false)]
           "b.mp4" "b" false eq_refl).
Defined.

(** C9 (as stated): with the first of two files refused, the call throws
    and the second file, which could be removed, is still there. *)
Lemma rmDirRecursive_throws_on_refusal :
  rmDirRecursive lockedWorkspace = (lockedWorkspace, Throw "EPERM: operation not permitted, unlink") /\
  existsSync (fst (rmDirRecursive lockedWorkspace)) "output.mp4" = true.
Proof. split; reflexivity. Qed.

(** ** The request pipeline *)

Section Pipeline.
Context `{JSRuntime}.

Lemma pipeline_unfold (env : Env) (req : Request) (f : UploadedFile) (w : World) :
  pipeline env req f w =
    match assertFileSize (size f) with
    | Throw m => (w, Throw m)
    | Normal _ =>
        let w1 := probed w (filename f) in
        match probeResult env with
        | Throw m => (w1, Throw m)
        | Normal m =>
            let o := parseProcessOptions (body req) in
            if forceConvert o || negb (shortsEligible (validateShorts m o))
            then
              match convertToShorts env (filename f) outputName o w1 with
              | (w2, Normal _) => (w2, Normal (convertedOutcome o m))
              | (w2, Throw msg) => (w2, Throw msg)
              end
            else (w1, Normal (skippedOutcome o m (filename f)))
        end
    end.
Proof.
  unfold pipeline, bind, lift, getVideoMetadata, ret, probed.
  destruct (assertFileSize (size f)); [|reflexivity].
  destruct (probeResult env) as [m|msg]; [|reflexivity].
  cbv zeta.
  destruct (forceConvert _ || negb _); [|reflexivity].
  destruct (convertToShorts _ _ _ _ _) as [w2 [u|msg]]; reflexivity.
Qed.

Lemma convertToShorts_calls (env : Env) (input output : string) (o : ProcessOptions) (w : World) :
  calls (fst (convertToShorts env input output o w)) =
    (calls w ++ [TranscodeCall input output o])%list.
Proof. reflexivity. Qed.

Lemma transcodes_probe (cs : list Call) (input : string) :
  transcodes (cs ++ [ProbeCall input])%list = transcodes cs.
Proof. unfold transcodes. rewrite List.filter_app, length_app. simpl. lia. Qed.

Lemma transcodes_transcode (cs : list Call) (i o : string) (opts : ProcessOptions) :
  transcodes (cs ++ [TranscodeCall i o opts])%list = S (transcodes cs).
Proof. unfold transcodes. rewrite List.filter_app, length_app. simpl. lia. Qed.

Lemma emit_calls (env : Env) (f : UploadedFile) (o : Outcome) (w : World) :
  calls (fst (emit env f o w)) = calls w.
Proof.
  unfold emit, bind, statSync.
  destruct (lookupEntry (tmpDir w) (outPath o)) as [[c b|es b]|]; reflexivity.
Qed.

(** The tool log after the handler is the log after the pipeline. *)
Lemma processShorts_calls (env : Env) (req : Request) (f : UploadedFile) (w : World) :
  file req = Some f ->
  calls (fst (processShorts env req w)) = calls (fst (pipeline env req f w)).
Proof.
  intros F. unfold processShorts, tryBlock. rewrite F. unfold bind.
  destruct (pipeline env req f w) as [w1 [o|msg]]; [|reflexivity].
  pose proof (emit_calls env f o w1) as E.
  destruct (emit env f o w1) as [w2 [r|msg]]; exact E.
Qed.

(** The response of the handler when the staged file can be read. *)
Lemma processShorts_streams (env : Env) (req : Request) (f : UploadedFile)
    (w w1 : World) (o : Outcome) (content : string) (busy : bool) :
  file req = Some f ->
  pipeline env req f w = (w1, Normal o) ->
  lookupEntry (tmpDir w1) (outPath o) = Some (FileNode content busy) ->
  processShorts env req w =
    (cleanup w1,
     Stream (responseHeaders f o (strlen content)) content (streamEvent env)).
Proof.
  intros F P L. unfold processShorts, tryBlock. rewrite F. unfold bind. rewrite P.
  unfold emit, bind, statSync. rewrite L. unfold readContent. rewrite L. reflexivity.
Qed.

(** A streamed response comes from a completed pipeline. *)
Lemma processShorts_stream_inv (env : Env) (req : Request) (w w' : World)
    (headers : gmap string string) (content : string) (ending : StreamEvent) :
  processShorts env req w = (w', Stream headers content ending) ->
  exists f w1 o statSize,
    file req = Some f /\
    pipeline env req f w = (w1, Normal o) /\
    headers = responseHeaders f o statSize.
Proof.
  unfold processShorts, tryBlock.
  destruct (file req) as [f|].
  - unfold bind. destruct (pipeline env req f w) as [w1 [o|msg]] eqn:P.
    + unfold emit, bind, statSync.
      destruct (lookupEntry (tmpDir w1) (outPath o)) as [[c b|es b]|].
      * intros [= _ <- _ _]. eauto 8.
      * intros [= _ <- _ _]. eauto 8.
      * unfold classify.
        repeat match goal with |- context [if ?c then _ else _] => destruct c end;
          discriminate.
    + unfold classify.
      repeat match goal with |- context [if ?c then _ else _] => destruct c end;
        discriminate.
  - unfold ret. discriminate.
Qed.

Lemma pipeline_outcome (env : Env) (req : Request) (f : UploadedFile)
    (w w1 : World) (o : Outcome) :
  pipeline env req f w = (w1, Normal o) ->
  exists m,
    probeResult env = Normal m /\
    (o = convertedOutcome (parseProcessOptions (body req)) m \/
     o = skippedOutcome (parseProcessOptions (body req)) m (filename f)).
Proof.
  rewrite pipeline_unfold.
  destruct (assertFileSize (size f)); [|discriminate].
  cbv zeta. destruct (probeResult env) as [m|msg]; [|discriminate].
  destruct (forceConvert _ || negb _).
  - destruct (convertToShorts _ _ _ _ _) as [w2 [u|msg]]; [|discriminate].
    intros [= _ <-]. eauto.
  - intros [= _ <-]. eauto.
Qed.
End Pipeline.

Section Claims.
Context `{JSRuntime}.

(** C4: once the upload has passed the size check and the probe has
    succeeded, the handler starts the transcoder exactly once when
    [forceConvert] is set or the clip is not eligible, and not at all when
    [forceConvert] is unset and the clip is eligible; in that case the
    output path is the staged input, the final metadata is the probed
    metadata, and the response streams the staged bytes. *)
Theorem transcode_iff_forced_or_ineligible (env : Env) (req : Request)
    (f : UploadedFile) (w : World) (m : VideoMetadata) :
  file req = Some f ->
  assertFileSize (size f) = Normal tt ->
  probeResult env = Normal m ->
  let o := parseProcessOptions (body req) in
  let v := validateShorts m o in
  (forceConvert o = true \/ shortsEligible v = false ->
     transcodes (calls (fst (processShorts env req w))) = S (transcodes (calls w))) /\
  (forceConvert o = false -> shortsEligible v = true ->
     transcodes (calls (fst (processShorts env req w))) = transcodes (calls w) /\
     exists out,
       pipeline env req f w = (probed w (filename f), Normal out) /\
       converted out = false /\
       outPath out = filename f /\
       finalMeta out = m /\
       forall content busy,
         lookupEntry (tmpDir w) (filename f) = Some (FileNode content busy) ->
         snd (processShorts env req w) =
           Stream (responseHeaders f out (strlen content)) content (streamEvent env)).
Proof.
  intros F A P o v.
  pose proof (pipeline_unfold env req f w) as U.
  rewrite A, P in U. cbv zeta in U. fold o v in U.
  split.
  - intros D.
    assert (D' : forceConvert o || negb (shortsEligible v) = true).
    { destruct D as [-> | ->]; [reflexivity|apply orb_true_r]. }
    rewrite D' in U.
    rewrite (processShorts_calls env req f w F), U.
    pose proof (convertToShorts_calls env (filename f) outputName o (probed w (filename f))) as C.
    destruct (convertToShorts _ _ _ _ _) as [w2 [u|msg]]; simpl in C |- *;
      rewrite C; simpl; now rewrite transcodes_transcode, transcodes_probe.
  - intros Hf He.
    assert (D' : forceConvert o || negb (shortsEligible v) = false).
    { now rewrite Hf, He. }
    rewrite D' in U. split.
    + rewrite (processShorts_calls env req f w F), U. simpl. apply transcodes_probe.
    + exists (skippedOutcome o m (filename f)). repeat split; try assumption.
      intros content busy L.
      now rewrite (processShorts_streams env req f w _ _ content busy F U L).
Qed.

(** C5: when the pipeline has converted, the final metadata carries the
    requested target width and height and their quotient as aspect ratio,
    keeps the probed duration and audio flag, and is what the response
    headers print; the prober ran once, on the staged input only. *)
Theorem converted_metadata_is_requested_target (env : Env) (req : Request)
    (f : UploadedFile) (w w1 : World) (out : Outcome) :
  pipeline env req f w = (w1, Normal out) ->
  converted out = true ->
  let o := parseProcessOptions (body req) in
  probeResult env = Normal (meta out) /\
  width (finalMeta out) = targetWidth o /\
  height (finalMeta out) = targetHeight o /\
  aspectRatio (finalMeta out) = SFdiv prec emax (targetWidth o) (targetHeight o) /\
  durationSec (finalMeta out) = durationSec (meta out) /\
  hasAudio (finalMeta out) = hasAudio (meta out) /\
  probes (calls w1) = S (probes (calls w)) /\
  (forall statSize,
     responseHeaders f out statSize !! "X-Video-Width" = Some (NumberToString (targetWidth o)) /\
     responseHeaders f out statSize !! "X-Video-Height" = Some (NumberToString (targetHeight o)) /\
     responseHeaders f out statSize !! "X-Video-AspectRatio" =
       Some (NumberToString (SFdiv prec emax (targetWidth o) (targetHeight o))) /\
     responseHeaders f out statSize !! "X-Video-DurationSec" =
       Some (NumberToString (durationSec (meta out)))).
Proof.
  intros P C o.
  destruct (pipeline_outcome env req f w w1 out P) as [m [Pm [E|E]]];
    [|rewrite E in C; discriminate].
  assert (W : probes (calls w1) = S (probes (calls w))).
  { rewrite pipeline_unfold in P.
    destruct (assertFileSize (size f)); [|discriminate]. cbv zeta in P.
    rewrite Pm in P.
    destruct (forceConvert _ || negb _).
    - pose proof (convertToShorts_calls env (filename f) outputName
                    (parseProcessOptions (body req)) (probed w (filename f))) as K.
      destruct (convertToShorts _ _ _ _ _) as [w2 [u|msg]]; [|discriminate].
      injection P as <- _. simpl in K. rewrite K. simpl.
      unfold probes. rewrite !List.filter_app, !length_app. simpl. lia.
    - injection P as _ P. rewrite E in P. discriminate. }
  subst out. fold o. cbn [meta finalMeta width height aspectRatio durationSec hasAudio convertedOutcome].
  repeat split; try assumption; reflexivity.
Qed.

(** C10: every streamed response carries the header X-Conversion-Mode,
    and its value is the mode of the request options (the requested mode,
    or the default), whether or not a conversion ran. *)
Theorem conversion_mode_header_is_requested_mode (env : Env) (req : Request)
    (w w' : World) (headers : gmap string string) (content : string)
    (ending : StreamEvent) :
  processShorts env req w = (w', Stream headers content ending) ->
  headers !! "X-Conversion-Mode" =
    Some (modeName (mode (parseProcessOptions (body req)))) /\
  (headers !! "X-Converted" = Some "true" \/ headers !! "X-Converted" = Some "false").
Proof.
  intros R.
  destruct (processShorts_stream_inv env req w w' headers content ending R)
    as (f & w1 & o & statSize & F & P & ->).
  destruct (pipeline_outcome env req f w w1 o P) as [m [_ [-> | ->]]].
  - split; [reflexivity|left; reflexivity].
  - split; [reflexivity|right; reflexivity].
Qed.

(** C1: a request without a file gets its 400 response while the world is
    left as it was: the workspace made for the request still exists. *)
Theorem processShorts_no_file_keeps_workspace (env : Env) (b : gmap string JSValue) (w : World) :
  fst (processShorts env {| file := None; body := b |} w) = w /\
  tmpDir (fst (processShorts env {| file := None; body := b |} freshWorkspace)) =
    Some (DirNode [] false) /\
  tmpDir (cleanup freshWorkspace) = None.
Proof. repeat split; reflexivity. Qed.
End Claims.

(** An eligible portrait clip is passed through; a 90 second one is
    transcoded once. *)
Lemma transcode_decision_on_samples :
  transcodes (calls (fst (processShorts (H:=integerRuntime)
                            (calmEnv portrait30s) padRequest stagedWorkspace))) = 0%nat /\
  snd (processShorts (H:=integerRuntime) (calmEnv portrait30s) padRequest stagedWorkspace) =
    Stream (responseHeaders (H:=integerRuntime) clipUpload
              (skippedOutcome (parseProcessOptions (H:=integerRuntime) padBody)
                 portrait30s "clip.mp4") 3)
           "raw" StreamEnd /\
  transcodes (calls (fst (processShorts (H:=integerRuntime)
                            (calmEnv portrait90s) padRequest stagedWorkspace))) = 1%nat.
Proof.
  pose proof (transcode_iff_forced_or_ineligible (H:=integerRuntime)
                (calmEnv portrait30s) padRequest clipUpload stagedWorkspace portrait30s
                eq_refl eq_refl eq_refl) as S30.
  pose proof (transcode_iff_forced_or_ineligible (H:=integerRuntime)
                (calmEnv portrait90s) padRequest clipUpload stagedWorkspace portrait90s
                eq_refl eq_refl eq_refl) as S90.
  cbv zeta in S30, S90.
  destruct S30 as [_ Skip]. destruct S90 as [Conv _].
  destruct (Skip eq_refl eq_refl) as [T (out & P & _ & _ & _ & R)].
  split; [exact T|]. split; [|exact (Conv (or_intror eq_refl))].
  vm_compute. reflexivity.
Defined.

(** The 90 second clip, converted: the final metadata is 1080x1920. *)
Lemma converted_metadata_on_sample :
  exists w1 out,
    pipeline (H:=integerRuntime) (calmEnv portrait90s) padRequest clipUpload stagedWorkspace =
      (w1, Normal out) /\
    converted out = true /\
    width (finalMeta out) = num 1080 /\
    height (finalMeta out) = num 1920 /\
    durationSec (finalMeta out) = num 90.
Proof.
  assert (E : pipeline (H:=integerRuntime) (calmEnv portrait90s) padRequest clipUpload
                stagedWorkspace =
              (fst (pipeline (H:=integerRuntime) (calmEnv portrait90s) padRequest clipUpload
                      stagedWorkspace),
               Normal (convertedOutcome (parseProcessOptions (H:=integerRuntime) padBody)
                         portrait90s)))
    by (vm_compute; reflexivity).
  eexists _, _. split; [exact E|]. split; [reflexivity|].
  destruct (converted_metadata_is_requested_target (H:=integerRuntime)
              (calmEnv portrait90s) padRequest clipUpload stagedWorkspace _ _
              E eq_refl) as (_ & W & Hh & _ & D & _).
  rewrite W, Hh, D. repeat split; vm_compute; reflexivity.
Defined.

(** An eligible clip sent with mode [pad] is not converted, and the
    header still says [pad]. *)
Lemma conversion_mode_header_without_conversion :
  exists w' headers content ending,
    processShorts (H:=integerRuntime) (calmEnv portrait30s) padRequest stagedWorkspace =
      (w', Stream headers content ending) /\
    headers !! "X-Converted" = Some "false" /\
    headers !! "X-Conversion-Mode" = Some "pad".
Proof.
  assert (E : processShorts (H:=integerRuntime) (calmEnv portrait30s) padRequest
                stagedWorkspace =
              (fst (processShorts (H:=integerRuntime) (calmEnv portrait30s) padRequest
                      stagedWorkspace),
               Stream (responseHeaders (H:=integerRuntime) clipUpload
                         (skippedOutcome (parseProcessOptions (H:=integerRuntime) padBody)
                            portrait30s "clip.mp4") 3)
                      "raw" StreamEnd))
    by (vm_compute; reflexivity).
  eexists _, _, _, _. split; [exact E|]. split; [vm_compute; reflexivity|].
  destruct (conversion_mode_header_is_requested_mode (H:=integerRuntime)
              (calmEnv portrait30s) padRequest stagedWorkspace _ _ _ _ E) as [M _].
  rewrite M. vm_compute. reflexivity.
Defined.

(** ** The disposition file name *)

Lemma allChars_slice0 (p : ascii -> bool) (n : nat) (s : string) :
  allChars p s = true -> allChars p (slice0 n s) = true.
Proof.
  revert s. induction n as [|n IH]; intros [|c s]; simpl; auto.
  intros [-> Hs]%andb_prop. simpl. auto.
Qed.

Lemma length_slice0 (n : nat) (s : string) : (String.length (slice0 n s) <= n)%nat.
Proof.
  revert s. induction n as [|n IH]; intros [|c s]; simpl; try lia.
  specialize (IH s). lia.
Qed.

Lemma allChars_replaced (s : string) :
  allChars allowedChar (mapString (fun c => if allowedChar c then c else underscore) s) = true.
Proof.
  induction s as [|c s IH]; [reflexivity|].
  simpl. rewrite IH, andb_true_r.
  destruct (allowedChar c) eqn:E; [exact E|reflexivity].
Qed.

(** [sanitizeFilename] alone keeps its promise: only letters, digits,
    dot, dash and underscore, at most 200 units, never empty, and the
    placeholder for the empty name. *)
Lemma sanitizeFilename_safe (name : string) :
  allChars allowedChar (sanitizeFilename name) = true /\
  (1 <= String.length (sanitizeFilename name) <= 200)%nat /\
  sanitizeFilename "" = "video".
Proof.
  unfold sanitizeFilename.
  pose proof (allChars_slice0 allowedChar 200 _ (allChars_replaced name)) as A.
  pose proof (length_slice0 200 (mapString (fun c => if allowedChar c then c else underscore) name)) as L.
  destruct (slice0 200 _) as [|c s]; simpl or_string.
  - repeat split; simpl; lia.
  - repeat split; try assumption; simpl in *; lia.
Qed.

(** C6: the extension is taken from the caller's name as it is and
    appended after the sanitized base: a space in it reaches the
    disposition file name, and a base of 200 units gives a name of 204
    units, or 211 with the [shorts_] prefix. *)
Theorem dispositionFilename_keeps_raw_extension :
  dispositionFilename spacedUpload false = "clip.m p4" /\
  allChars allowedChar (dispositionFilename spacedUpload false) = false /\
  String.length (dispositionFilename longUpload false) = 204%nat /\
  String.length (dispositionFilename longUpload true) = 211%nat /\
  allChars allowedChar (dispositionFilename longUpload true) = true.
Proof. repeat split; reflexivity. Qed.

(** ** Cleanup on the paths that have a file *)



Lemma cleanup_removable (w : World) :
  workspaceRemovable (tmpDir w) = true -> tmpDir (cleanup w) = None.
Proof.
  unfold cleanup, workspaceRemovable, rmDirRecursive. cbn [tmpDir].
  destruct (tmpDir w) as [[c b|es b]|]; [discriminate| |reflexivity].
  intros R. now rewrite (rmNode_removable _ _ R).
Qed.

Section CleanupWithFile.
Context `{JSRuntime}.


End CleanupWithFile.


(** ** Samples of the path functions *)

Example extname_samples :
  extname "index.html" = ".html" /\ extname "index.coffee.md" = ".md" /\
  extname "index." = "." /\ extname "index" = "" /\ extname ".index" = "" /\
  extname ".index.md" = ".md" /\ extname ".." = "" /\ extname "a.b/c" = "" /\
  extname "clip.m p4" = ".m p4".
Proof. repeat split; reflexivity. Qed.

Example basename_samples :
  basename "/foo/bar/baz/asdf/quux.html" "" = "quux.html" /\
  basename "/foo/bar/baz/asdf/quux.html" ".html" = "quux" /\
  basename "aaa/bbb" "bbb" = "bbb" /\
  basename ".mp4" ".mp4" = "" /\
  basename "clip.m p4" ".m p4" = "clip" /\
  basename "video" ".mp4" = "video".
Proof. repeat split; reflexivity. Qed.

Example sanitizeFilename_samples :
  sanitizeFilename "" = "video" /\
  sanitizeFilename "../etc/pass wd" = ".._etc_pass_wd" /\
  sanitizeFilename (String (ascii_of_nat 233) "t" ++ String (ascii_of_nat 233) "") = "_t_".
Proof. repeat split; reflexivity. Qed.

(** * Further properties of the sources *)

(** ** The upload filter and the route *)

Lemma isVideoMime_prefix (mime : string) :
  isVideoMime mime = startsWith mime "video/".
Proof.
  destruct mime as [|c mime]; [reflexivity|].
  unfold isVideoMime. case_bool_decide as E; [|reflexivity].
  unfold ALLOWED_MIMES, VIDEO_MIMES in E. rewrite elem_of_list_to_set in E.
  repeat (apply elem_of_cons in E as [-> | E]; [reflexivity|]).
  now apply elem_of_nil in E.
Qed.

(** X4: the filter accepts exactly the MIME types that begin with
    [video/]; the list of known types adds nothing to that, and the empty
    type is refused. *)
Theorem isVideoMime_is_video_prefix (mime : string) :
  isVideoMime mime = startsWith mime "video/" /\
  isVideoMime "" = false /\
  fileFilter mime = (if startsWith mime "video/" then Normal true else Throw "FILE_NOT_VIDEO").
Proof.
  split; [apply isVideoMime_prefix|]. split; [reflexivity|].
  unfold fileFilter. rewrite isVideoMime_prefix. now destruct (startsWith mime "video/").
Qed.

(** X5: an upload whose MIME type does not begin with [video/] is refused
    by the filter with FILE_NOT_VIDEO; the route then removes the workspace
    and answers 415 UNSUPPORTED_MEDIA without running the handler. *)
Theorem non_video_upload_is_refused `{JSRuntime} (env : Env) (req : Request)
    (w : World) (mime : string) :
  startsWith mime "video/" = false ->
  workspaceRemovable (tmpDir w) = true ->
  fileFilter mime = Throw "FILE_NOT_VIDEO" /\
  routeProcessShorts env (Some {| errCode := None; errMessage := Some "FILE_NOT_VIDEO" |})
      req w =
    ({| tmpDir := None; calls := calls w |},
     Json 415 "UNSUPPORTED_MEDIA" "File is not a video (invalid MIME type).").
Proof.
  intros P R. split.
  - unfold fileFilter. now rewrite isVideoMime_prefix, P.
  - unfold routeProcessShorts. f_equal.
    pose proof (cleanup_removable w R) as C.
    unfold cleanup in *. cbn [tmpDir] in C. now rewrite C.
Qed.

Lemma non_video_upload_sample :
  fileFilter "image/png" = Throw "FILE_NOT_VIDEO" /\
  routeProcessShorts (H:=integerRuntime) (calmEnv portrait30s)
      (Some {| errCode := None; errMessage := Some "FILE_NOT_VIDEO" |})
      padRequest stagedWorkspace =
    ({| tmpDir := None; calls := [] |},
     Json 415 "UNSUPPORTED_MEDIA" "File is not a video (invalid MIME type).").
Proof.
  exact (non_video_upload_is_refused (H:=integerRuntime) (calmEnv portrait30s) padRequest
           stagedWorkspace "image/png" eq_refl eq_refl).
Defined.

(** ** The [inspect] handler *)

Section InspectProperties.
Context `{JSRuntime}.

Lemma cleanup_calls (w : World) : calls (cleanup w) = calls w.
Proof. reflexivity. Qed.

Lemma cleanup_absent (w : World) : tmpDir w = None -> tmpDir (cleanup w) = None.
Proof. unfold cleanup. intros ->. reflexivity. Qed.

Lemma inspectTry_removable (env : Env) (req : Request) (w : World) :
  workspaceRemovable (tmpDir w) = true ->
  workspaceRemovable (tmpDir (fst (inspectTry env req w))) = true.
Proof.
  intros R. unfold inspectTry. destruct (file req) as [f|].
  - unfold bind, lift, getVideoMetadata, ret.
    destruct (assertFileSize (size f)); [|exact R].
    destruct (probeResult env); exact R.
  - unfold bind, ret. cbn [fst snd tmpDir].
    pose proof (cleanup_removable w R) as C. unfold cleanup in C. cbn [tmpDir] in C.
    destruct (rmDirRecursive (tmpDir w)) as [d [u|msg]]; simpl in *; now subst d.
Qed.

(** X6: [inspect] leaves no workspace behind on any path -- no file,
    size refusal, probe failure, or success -- when nothing in the
    workspace refuses its removal. *)
Theorem inspect_removes_workspace (env : Env) (req : Request) (w : World) :
  workspaceRemovable (tmpDir w) = true ->
  tmpDir (fst (inspect env req w)) = None.
Proof.
  intros R. unfold inspect.
  pose proof (inspectTry_removable env req w R) as K.
  destruct (inspectTry env req w) as [w1 [r|msg]]; cbn [fst] in K |- *.
  - now apply cleanup_removable.
  - apply cleanup_absent. now apply cleanup_removable.
Qed.

(** X7: [inspect] never starts the transcoder, and starts the prober at
    most once. *)
Theorem inspect_never_transcodes (env : Env) (req : Request) (w : World) :
  transcodes (calls (fst (inspect env req w))) = transcodes (calls w) /\
  (probes (calls (fst (inspect env req w))) <= S (probes (calls w)))%nat.
Proof.
  unfold inspect, inspectTry. destruct (file req) as [f|].
  - unfold bind, lift, getVideoMetadata, ret.
    destruct (assertFileSize (size f)); [|simpl; lia].
    destruct (probeResult env); simpl;
      unfold transcodes, probes; rewrite !List.filter_app, !length_app; simpl; lia.
  - unfold bind, ret. cbn [fst snd].
    destruct (snd (rmDirRecursive (tmpDir w))); simpl; lia.
Qed.

(** An answer of [inspect] with a report comes from a successful probe. *)
Lemma inspect_ok_inv (env : Env) (req : Request) (w w1 : World) (r : InspectReport) :
  inspect env req w = (w1, InspectOk r) ->
  exists f m,
    file req = Some f /\
    assertFileSize (size f) = Normal tt /\
    probeResult env = Normal m /\
    repShortsEligible r =
      shortsEligible (validateShorts m (parseProcessOptions (body req))) /\
    repReason r = reasons (validateShorts m (parseProcessOptions (body req))) /\
    repWidth r = width m /\ repHeight r = height m.
Proof.
  unfold inspect, inspectTry. destruct (file req) as [f|].
  - unfold bind, lift, getVideoMetadata, ret.
    destruct (assertFileSize (size f)) as [[]|msg] eqn:A.
    + destruct (probeResult env) as [m|msg] eqn:P.
      * intros [= _ <-]. exists f, m. repeat split; try reflexivity; assumption.
      * unfold inspectClassify.
        repeat match goal with |- context [if ?c then _ else _] => destruct c end;
          discriminate.
    + unfold inspectClassify.
      repeat match goal with |- context [if ?c then _ else _] => destruct c end;
        discriminate.
  - unfold bind, ret. cbn [fst snd].
    destruct (snd (rmDirRecursive (tmpDir w))); [discriminate|].
    unfold inspectClassify.
    repeat match goal with |- context [if ?c then _ else _] => destruct c end;
      discriminate.
Qed.

Lemma pipeline_converted (env : Env) (req : Request) (f : UploadedFile)
    (w w1 : World) (o : Outcome) (m : VideoMetadata) :
  pipeline env req f w = (w1, Normal o) ->
  probeResult env = Normal m ->
  validation o = validateShorts m (parseProcessOptions (body req)) /\
  converted o =
    forceConvert (parseProcessOptions (body req)) ||
    negb (shortsEligible (validateShorts m (parseProcessOptions (body req)))).
Proof.
  rewrite pipeline_unfold. intros P E. rewrite E in P.
  destruct (assertFileSize (size f)); [|discriminate]. cbv zeta in P.
  destruct (forceConvert _ || negb _) eqn:D.
  - destruct (convertToShorts _ _ _ _ _) as [w2 [u|msg]]; [|discriminate].
    injection P as _ <-. split; reflexivity.
  - injection P as _ <-. split; reflexivity.
Qed.

(** X8: the two endpoints agree. When [inspect] reports eligibility [e]
    for a request and [processShorts] streams a response for the same
    request and probe, the header X-Shorts-Eligible carries [e] and
    X-Converted tells whether [forceConvert] was set or [e] is false. *)
Theorem inspect_agrees_with_processShorts (env : Env) (req : Request)
    (w w1 w2 w3 : World) (r : InspectReport) (headers : gmap string string)
    (content : string) (ending : StreamEvent) :
  inspect env req w = (w1, InspectOk r) ->
  processShorts env req w2 = (w3, Stream headers content ending) ->
  headers !! "X-Shorts-Eligible" = Some (boolName (repShortsEligible r)) /\
  headers !! "X-Converted" =
    Some (boolName (forceConvert (parseProcessOptions (body req)) ||
                    negb (repShortsEligible r))).
Proof.
  intros I S.
  destruct (inspect_ok_inv env req w w1 r I) as (f & m & F & _ & P & E & _).
  destruct (processShorts_stream_inv env req w2 w3 headers content ending S)
    as (f' & w4 & o & statSize & F' & Q & ->).
  destruct (pipeline_converted env req f' w2 w4 o m Q P) as [V C].
  assert (L1 : responseHeaders f' o statSize !! "X-Shorts-Eligible" =
               Some (boolName (shortsEligible (validation o)))) by reflexivity.
  assert (L2 : responseHeaders f' o statSize !! "X-Converted" =
               Some (boolName (converted o))) by reflexivity.
  rewrite L1, L2, V, C, E. split; reflexivity.
Qed.
End InspectProperties.

(** A request without a file: [inspect] removes the fresh workspace. *)
Lemma inspect_no_file_sample :
  tmpDir (fst (inspect (H:=integerRuntime) (calmEnv portrait30s)
                 {| file := None; body := ∅ |} freshWorkspace)) = None.
Proof.
  exact (inspect_removes_workspace (H:=integerRuntime) (calmEnv portrait30s)
           {| file := None; body := ∅ |} freshWorkspace eq_refl).
Defined.

(** The 90 second clip: [inspect] says not eligible, [processShorts]
    converts and says the same. *)
Lemma inspect_agreement_sample :
  exists w1 r w3 headers content ending,
    inspect (H:=integerRuntime) (calmEnv portrait90s) padRequest stagedWorkspace =
      (w1, InspectOk r) /\
    processShorts (H:=integerRuntime) (calmEnv portrait90s) padRequest stagedWorkspace =
      (w3, Stream headers content ending) /\
    repReason r = ["DURATION_EXCEEDED"] /\
    headers !! "X-Shorts-Eligible" = Some "false" /\
    headers !! "X-Converted" = Some "true".
Proof.
  assert (I : inspect (H:=integerRuntime) (calmEnv portrait90s) padRequest stagedWorkspace =
              (fst (inspect (H:=integerRuntime) (calmEnv portrait90s) padRequest
                      stagedWorkspace),
               InspectOk
                 {| repWidth := num 1080; repHeight := num 1920;
                    repDurationSec := num 90;
                    repAspectRatio := decimal 563 1000;
                    repShortsEligible := false;
                    repReason := ["DURATION_EXCEEDED"] |}))
    by (vm_compute; reflexivity).
  assert (S : processShorts (H:=integerRuntime) (calmEnv portrait90s) padRequest
                stagedWorkspace =
              (fst (processShorts (H:=integerRuntime) (calmEnv portrait90s) padRequest
                      stagedWorkspace),
               Stream (responseHeaders (H:=integerRuntime) clipUpload
                         (convertedOutcome (parseProcessOptions (H:=integerRuntime) padBody)
                            portrait90s) 9)
                      "converted" StreamEnd))
    by (vm_compute; reflexivity).
  eexists _, _, _, _, _, _. split; [exact I|]. split; [exact S|].
  split; [reflexivity|].
  destruct (inspect_agrees_with_processShorts (H:=integerRuntime) _ _ _ _ _ _ _ _ _ _ I S)
    as [E C].
  split; [exact E|exact C].
Defined.

(** ** The prober *)

Section ProbeProperties.
Variable parseFloat : string -> number.

(** What the loop over the streams keeps true: the dimensions are the
    initial zeros or those of a video stream already read, and the audio
    flag tells whether an audio stream was read. *)
Lemma probe_loop (fmt : FFprobe.Format) (ss : list FFprobe.Stream) (acc : FFprobe.Acc)
    (seen : list FFprobe.Stream) :
  ((FFprobe.accWidth acc = num 0 /\ FFprobe.accHeight acc = num 0) \/
   exists s, In s seen /\ FFprobe.isVideo s = true /\
     FFprobe.accWidth acc = match FFprobe.width s with Some x => x | None => num 0 end /\
     FFprobe.accHeight acc = match FFprobe.height s with Some x => x | None => num 0 end) ->
  FFprobe.accHasAudio acc = existsb FFprobe.isAudio seen ->
  let final := fold_left (FFprobe.step parseFloat fmt) ss acc in
  ((FFprobe.accWidth final = num 0 /\ FFprobe.accHeight final = num 0) \/
   exists s, In s (seen ++ ss)%list /\ FFprobe.isVideo s = true /\
     FFprobe.accWidth final = match FFprobe.width s with Some x => x | None => num 0 end /\
     FFprobe.accHeight final = match FFprobe.height s with Some x => x | None => num 0 end) /\
  FFprobe.accHasAudio final = existsb FFprobe.isAudio (seen ++ ss)%list.
Proof.
  revert acc seen. induction ss as [|s ss IH]; intros acc seen D A.
  - cbv zeta. simpl. rewrite app_nil_r. auto.
  - cbv zeta. simpl fold_left.
    replace (seen ++ s :: ss)%list with ((seen ++ [s]) ++ ss)%list
      by (rewrite <- app_assoc; reflexivity).
    apply IH.
    + unfold FFprobe.step.
      destruct (FFprobe.isVideo s) eqn:V.
      * right. exists s. split; [apply in_or_app; right; now left|].
        destruct (FFprobe.isAudio s); simpl; auto.
      * destruct D as [Z | (s0 & I & V0 & W & Hh)].
        -- left. destruct (FFprobe.isAudio s); simpl; auto.
        -- right. exists s0. split; [apply in_or_app; now left|].
           destruct (FFprobe.isAudio s); simpl; auto.
    + rewrite existsb_app. simpl. rewrite orb_false_r.
      unfold FFprobe.step.
      destruct (FFprobe.isVideo s), (FFprobe.isAudio s); simpl; rewrite <- A;
        try reflexivity; now rewrite ?orb_true_r, ?orb_false_r.
Qed.

(** X9: when the probe output is accepted, width and height are nonzero
    numbers (never 0, never NaN) taken from one of its video streams, the
    audio flag tells whether some stream is an audio stream, and the aspect
    ratio is width / height for a positive height (0 otherwise). *)
Theorem metadataOf_accepts_only_dimensions (json : FFprobe.Output) (m : VideoMetadata) :
  FFprobe.metadataOf parseFloat json = Normal m ->
  let ss := match FFprobe.streams json with Some l => l | None => [] end in
  truthy (width m) = true /\ truthy (height m) = true /\
  (exists s, In s ss /\ FFprobe.codec_type s = "video" /\
     FFprobe.width s = Some (width m) /\ FFprobe.height s = Some (height m)) /\
  hasAudio m = existsb FFprobe.isAudio ss /\
  aspectRatio m =
    (if gt (height m) (num 0) then SFdiv prec emax (width m) (height m) else num 0).
Proof.
  unfold FFprobe.metadataOf. cbv zeta.
  set (ss := match FFprobe.streams json with Some l => l | None => [] end).
  set (fmt := match FFprobe.format json with Some f => f | None => _ end).
  destruct (probe_loop fmt ss
              {| FFprobe.accWidth := num 0; FFprobe.accHeight := num 0;
                 FFprobe.accDurationSec := num 0; FFprobe.accHasAudio := false |}
              [] (or_introl (conj eq_refl eq_refl)) eq_refl) as [D A].
  cbv zeta in D, A. simpl app in D, A.
  set (acc := fold_left _ ss _) in *.
  destruct (truthy (FFprobe.accWidth acc)) eqn:TW; [|discriminate].
  destruct (truthy (FFprobe.accHeight acc)) eqn:TH; [|discriminate].
  simpl. intros [= <-]. cbn [width height hasAudio aspectRatio].
  repeat split; try assumption.
  destruct D as [[Z _] | (s & I & V & W & Hh)].
  - rewrite Z in TW. discriminate.
  - exists s. split; [assumption|]. split; [now apply String.eqb_eq|].
    destruct (FFprobe.width s) as [x|]; [|rewrite W in TW; discriminate].
    destruct (FFprobe.height s) as [y|]; [|rewrite Hh in TH; discriminate].
    now rewrite W, Hh.
Qed.

(** X10: a probe output with no video stream -- no [streams] property,
    an empty list, audio only -- is rejected as having no video stream. *)
Theorem metadataOf_rejects_without_video (json : FFprobe.Output) :
  existsb FFprobe.isVideo
    (match FFprobe.streams json with Some l => l | None => [] end) = false ->
  FFprobe.metadataOf parseFloat json =
    Throw "ffprobe: no video stream or missing width/height".
Proof.
  intros N. unfold FFprobe.metadataOf. cbv zeta.
  set (ss := match FFprobe.streams json with Some l => l | None => [] end) in *.
  set (fmt := match FFprobe.format json with Some f => f | None => _ end).
  destruct (probe_loop fmt ss
              {| FFprobe.accWidth := num 0; FFprobe.accHeight := num 0;
                 FFprobe.accDurationSec := num 0; FFprobe.accHasAudio := false |}
              [] (or_introl (conj eq_refl eq_refl)) eq_refl) as [D _].
  cbv zeta in D. simpl app in D.
  set (acc := fold_left _ ss _) in *.
  destruct D as [[Z _] | (s & I & V & _)].
  - rewrite Z. reflexivity.
  - assert (existsb FFprobe.isVideo ss = true) by (apply existsb_exists; eauto).
    congruence.
Qed.
End ProbeProperties.

Lemma metadataOf_landscape_sample :
  exists m,
    FFprobe.metadataOf integerParseFloat landscapeOutput = Normal m /\
    width m = num 952 /\ height m = num 718 /\ hasAudio m = true /\
    durationSec m = num 48.
Proof.
  assert (E : FFprobe.metadataOf integerParseFloat landscapeOutput =
              Normal {| width := num 952; height := num 718; durationSec := num 48;
                        aspectRatio := SFdiv prec emax (num 952) (num 718);
                        hasAudio := true |})
    by (vm_compute; reflexivity).
  eexists. split; [exact E|].
  pose proof (metadataOf_accepts_only_dimensions integerParseFloat landscapeOutput _ E) as T.
  cbv zeta in T. destruct T as (_ & _ & _ & A & _).
  split; [reflexivity|]. split; [reflexivity|].
  split; [exact (eq_trans A eq_refl)|reflexivity].
Defined.

Lemma metadataOf_audio_only_sample :
  FFprobe.metadataOf integerParseFloat audioOnlyOutput =
    Throw "ffprobe: no video stream or missing width/height".
Proof.
  exact (metadataOf_rejects_without_video integerParseFloat audioOnlyOutput eq_refl).
Defined.

(** ** Failures of the prober, as the handler answers them *)

Lemma startsWith_includes (s p : string) : startsWith s p = true -> includes s p = true.
Proof. destruct s; simpl; intros ->; reflexivity. Qed.

Lemma classify_ffprobe (message : string) :
  startsWith message "ffprobe" = true ->
  classify message = Json 422 "PROBE_FAILED" message.
Proof.
  intros P. unfold classify. rewrite (startsWith_includes _ _ P).
  destruct (String.eqb message "FILE_NOT_VIDEO") eqn:E; [|reflexivity].
  apply String.eqb_eq in E. subst message. discriminate P.
Qed.

Section ProbeFailure.
Context `{JSRuntime}.
Variable parseFloat : string -> number.

Lemma settle_rejection (ev : FFprobe.Event) (message : string) :
  FFprobe.settle parseFloat ev = Throw message ->
  startsWith message "ffprobe" = true.
Proof.
  destruct ev as [msg|code out err]; simpl.
  - intros [= <-]. reflexivity.
  - destruct code as [[|p|p]|]; try (intros [= <-]; reflexivity).
    destruct out as [json|msg]; [|intros [= <-]; reflexivity].
    unfold FFprobe.metadataOf. cbv zeta.
    destruct (negb _ || negb _); [|discriminate].
    intros [= <-]. reflexivity.
Qed.

(** X11: when [getVideoMetadata] fails, the handler starts no transcoder,
    cleans up, and answers 422 PROBE_FAILED with the prober's message --
    for a spawn failure, a nonzero exit, unreadable output and output
    without a usable video stream alike -- or 400 INVALID_PATH when the
    path was refused for lying outside the temp directory. *)
Theorem probe_failure_is_answered (env : Env) (req : Request) (f : UploadedFile)
    (w : World) (path : string) (ev : FFprobe.Event) (message : string) :
  file req = Some f ->
  assertFileSize (size f) = Normal tt ->
  probeResult env = FFprobe.getVideoMetadata parseFloat path ev ->
  FFprobe.getVideoMetadata parseFloat path ev = Throw message ->
  processShorts env req w =
    (cleanup (probed w (filename f)),
     if startsWith path "/tmp"
     then Json 422 "PROBE_FAILED" message
     else Json 400 "INVALID_PATH" message) /\
  transcodes (calls (fst (processShorts env req w))) = transcodes (calls w).
Proof.
  intros F A P T.
  assert (E : processShorts env req w =
              (cleanup (probed w (filename f)), classify message)).
  { unfold processShorts, tryBlock. rewrite F. unfold bind at 1.
    rewrite pipeline_unfold, A. cbv zeta. rewrite P, T. reflexivity. }
  rewrite E. split.
  - f_equal. unfold FFprobe.getVideoMetadata, FFprobe.safePath in T.
    destruct (startsWith path "/tmp"); simpl in T.
    + apply classify_ffprobe. now apply settle_rejection with (ev := ev).
    + injection T as <-. reflexivity.
  - simpl. apply transcodes_probe.
Qed.
End ProbeFailure.

Lemma probe_failure_sample :
  snd (processShorts (H:=integerRuntime)
         {| envTimeoutSec := None;
            probeResult := FFprobe.getVideoMetadata (H:=integerRuntime) integerParseFloat
                             "/tmp/shorts-api/r1/clip.mp4"
                             (FFprobe.Exited (Some 0) (Normal audioOnlyOutput) "");
            ffmpegOutput := None; ffmpegFirst := TimerFired; ffmpegLater := [];
            streamEvent := StreamEnd |}
         padRequest stagedWorkspace) =
    Json 422 "PROBE_FAILED" "ffprobe: no video stream or missing width/height".
Proof.
  destruct (probe_failure_is_answered (H:=integerRuntime) integerParseFloat
    {| envTimeoutSec := None;
       probeResult := FFprobe.getVideoMetadata (H:=integerRuntime) integerParseFloat
                        "/tmp/shorts-api/r1/clip.mp4"
                        (FFprobe.Exited (Some 0) (Normal audioOnlyOutput) "");
       ffmpegOutput := None; ffmpegFirst := TimerFired; ffmpegLater := [];
       streamEvent := StreamEnd |}
    padRequest clipUpload stagedWorkspace
    "/tmp/shorts-api/r1/clip.mp4" (FFprobe.Exited (Some 0) (Normal audioOnlyOutput) "")
    "ffprobe: no video stream or missing width/height"
    eq_refl eq_refl eq_refl eq_refl) as [E _].
  rewrite E. reflexivity.
Defined.

(** ** The callbacks of [convertToShorts], continued *)

Section ConvertOutcome.
Context `{JSRuntime}.
Variables (timeoutSec : number) (outputExists : bool).

Lemma convertStep_after_settled (st : ConvertState) (ev : ProcEvent) :
  settled st = true -> timerArmed st = false ->
  settled (convertStep timeoutSec outputExists st ev) = true /\
  timerArmed (convertStep timeoutSec outputExists st ev) = false /\
  killed (convertStep timeoutSec outputExists st ev) = killed st.
Proof.
  intros S T. destruct ev; simpl.
  - unfold onTimeout. rewrite T. simpl. auto.
  - unfold onError. rewrite S. auto.
  - unfold onClose. rewrite S. auto.
Qed.

Lemma convertRun_after_settled (events : list ProcEvent) (st : ConvertState) :
  settled st = true -> timerArmed st = false ->
  timerArmed (fold_left (convertStep timeoutSec outputExists) events st) = false /\
  killed (fold_left (convertStep timeoutSec outputExists) events st) = killed st.
Proof.
  revert st. induction events as [|ev events IH]; intros st S T; [auto|].
  simpl. destruct (convertStep_after_settled st ev S T) as (S' & T' & K').
  destruct (IH _ S' T') as [T2 K2]. split; [assumption|congruence].
Qed.

Lemma convertRun_first (first : ProcEvent) (later : list ProcEvent) :
  settlements (convertRun timeoutSec outputExists (first :: later)) =
    settlements (convertStep timeoutSec outputExists convertStart first).
Proof.
  unfold convertRun. simpl. apply convertRun_settled.
  now destruct (convertStep_first timeoutSec outputExists first).
Qed.

(** X12: the promise of [convertToShorts] is resolved only by a first
    event that is the close of the child with exit code 0, and only when
    the output file exists then; every other course -- timer first, spawn
    error first, nonzero or missing exit code, missing output -- rejects
    it. *)
Theorem convertToShorts_resolves_only_on_clean_exit
    (first : ProcEvent) (later : list ProcEvent) :
  (cleanExit first && outputExists = true ->
     settlements (convertRun timeoutSec outputExists (first :: later)) = [Normal tt]) /\
  (cleanExit first && outputExists = false ->
     exists message,
       settlements (convertRun timeoutSec outputExists (first :: later)) = [Throw message]).
Proof.
  rewrite convertRun_first. split.
  - destruct first as [|msg|[[|p|p]|] sg se]; try discriminate.
    simpl. destruct outputExists; [reflexivity|discriminate].
  - destruct first as [|msg|[[|p|p]|] sg se]; simpl; eauto.
    destruct outputExists; [discriminate|eauto].
Qed.

(** X13: the child is sent SIGKILL exactly when the timer is the first
    event to run, and after the first event no timer is left armed,
    whatever events follow. *)
Theorem convertToShorts_kills_only_on_timeout (first : ProcEvent) (later : list ProcEvent) :
  killed (convertRun timeoutSec outputExists (first :: later)) = isTimer first /\
  timerArmed (convertRun timeoutSec outputExists (first :: later)) = false.
Proof.
  unfold convertRun. simpl.
  assert (F : settled (convertStep timeoutSec outputExists convertStart first) = true /\
              timerArmed (convertStep timeoutSec outputExists convertStart first) = false /\
              killed (convertStep timeoutSec outputExists convertStart first) = isTimer first).
  { destruct first; simpl; auto. }
  destruct F as (S & T & K).
  destruct (convertRun_after_settled later _ S T) as [T' K'].
  split; [congruence|assumption].
Qed.
End ConvertOutcome.

(** ** The handler on the conversion paths *)

Lemma lookup_putEntry (name : string) (n : Node) (es : list (string * Node)) (busy : bool) :
  lookupEntry (Some (DirNode (putEntry name n es) busy)) name = Some n.
Proof.
  unfold lookupEntry. induction es as [|[k v] es IH]; simpl.
  - now rewrite String.eqb_refl.
  - destruct (String.eqb k name) eqn:E; simpl; rewrite E; [reflexivity|exact IH].
Qed.

Section ConversionPaths.
Context `{JSRuntime}.

Lemma convertToShorts_unfold (env : Env) (input output : string) (o : ProcessOptions)
    (w : World) :
  convertToShorts env input output o w =
    (let dir := match ffmpegOutput env with
                | Some bytes => writeFile (tmpDir w) output bytes
                | None => tmpDir w
                end in
     ({| tmpDir := dir; calls := (calls w ++ [TranscodeCall input output o])%list |},
      match settlements (convertStep (getFfmpegTimeoutSec (envTimeoutSec env))
                           (existsSync dir output) convertStart (ffmpegFirst env)) with
      | first :: _ => first
      | [] => Throw "promise left pending"
      end)).
Proof.
  unfold convertToShorts. cbv zeta. now rewrite convertRun_first.
Qed.

(** X14: the success path of a conversion. When the conversion is
    decided, ffmpeg writes [bytes] to the output path of an existing
    workspace and its first event is a close with exit code 0, the handler
    streams exactly [bytes], with Content-Length their number, X-Converted
    [true] and the [shorts_] name, and the final metadata of the
    conversion. *)
Theorem conversion_streams_the_output (env : Env) (req : Request) (f : UploadedFile)
    (w : World) (m : VideoMetadata) (es : list (string * Node)) (busy : bool)
    (bytes signal stderr : string) :
  file req = Some f ->
  assertFileSize (size f) = Normal tt ->
  probeResult env = Normal m ->
  let o := parseProcessOptions (body req) in
  forceConvert o || negb (shortsEligible (validateShorts m o)) = true ->
  tmpDir w = Some (DirNode es busy) ->
  ffmpegOutput env = Some bytes ->
  ffmpegFirst env = Closed (Some 0) signal stderr ->
  exists headers,
    snd (processShorts env req w) = Stream headers bytes (streamEvent env) /\
    headers = responseHeaders f (convertedOutcome o m) (strlen bytes) /\
    headers !! "Content-Length" = Some (NumberToString (num (strlen bytes))) /\
    headers !! "X-Converted" = Some "true" /\
    headers !! "Content-Disposition" =
      Some ("attachment; filename=" ++ quote ++ "shorts_" ++
            dispositionFilename f false ++ quote).
Proof.
  intros F A P o D T O E.
  assert (C : convertToShorts env (filename f) outputName o (probed w (filename f)) =
              ({| tmpDir := Some (DirNode (putEntry outputName (FileNode bytes false) es) busy);
                  calls := (calls (probed w (filename f)) ++
                            [TranscodeCall (filename f) outputName o])%list |},
               Normal tt)).
  { rewrite convertToShorts_unfold, O, E. cbv zeta. cbn [probed tmpDir]. rewrite T.
    cbn [writeFile]. unfold existsSync. rewrite lookup_putEntry. reflexivity. }
  pose proof (pipeline_unfold env req f w) as U.
  rewrite A, P in U. cbv zeta in U. fold o in U. rewrite D, C in U.
  eexists. split; [|split; [reflexivity|]].
  - rewrite (processShorts_streams env req f w _ _ bytes false F U); [reflexivity|].
    cbn [tmpDir convertedOutcome outPath]. apply lookup_putEntry.
  - repeat split; reflexivity.
Qed.

(** X15: no partial output. When the conversion is decided and the first
    event of ffmpeg is not a close with exit code 0, the handler answers
    with an error JSON, never with a stream, after one transcode attempt. *)
Theorem failed_conversion_never_streams (env : Env) (req : Request) (f : UploadedFile)
    (w : World) (m : VideoMetadata) :
  file req = Some f ->
  assertFileSize (size f) = Normal tt ->
  probeResult env = Normal m ->
  let o := parseProcessOptions (body req) in
  forceConvert o || negb (shortsEligible (validateShorts m o)) = true ->
  cleanExit (ffmpegFirst env) = false ->
  isJson (snd (processShorts env req w)) = true /\
  transcodes (calls (fst (processShorts env req w))) = S (transcodes (calls w)).
Proof.
  intros F A P o D E.
  pose proof (pipeline_unfold env req f w) as U.
  rewrite A, P in U. cbv zeta in U. fold o in U. rewrite D in U.
  rewrite convertToShorts_unfold in U. cbv zeta in U.
  assert (X : exists message,
            settlements (convertStep (getFfmpegTimeoutSec (envTimeoutSec env))
              (existsSync
                 match ffmpegOutput env with
                 | Some bytes => writeFile (tmpDir (probed w (filename f))) outputName bytes
                 | None => tmpDir (probed w (filename f))
                 end outputName) convertStart (ffmpegFirst env)) = [Throw message]).
  { destruct (ffmpegFirst env) as [|msg|[[|p|p]|] sg se]; simpl; eauto; discriminate. }
  destruct X as [message X]. rewrite X in U. split.
  - unfold processShorts, tryBlock. rewrite F. unfold bind at 1. rewrite U.
    unfold classify.
    repeat match goal with |- context [if ?c then _ else _] => destruct c end; reflexivity.
  - rewrite (processShorts_calls env req f w F), U. simpl.
    now rewrite transcodes_transcode, transcodes_probe.
Qed.

(** X16: an upload above 200 MB is refused by the handler before any
    tool is started: the answer is 400 FILE_TOO_LARGE after cleanup; a
    size of exactly 200 MB passes the check. *)
Theorem oversized_upload_is_refused (env : Env) (req : Request) (f : UploadedFile)
    (w : World) :
  file req = Some f ->
  MAX_FILE_SIZE_BYTES < size f ->
  processShorts env req w =
    (cleanup w, Json 400 "FILE_TOO_LARGE" "File size exceeds 200MB limit") /\
  calls (fst (processShorts env req w)) = calls w /\
  assertFileSize MAX_FILE_SIZE_BYTES = Normal tt.
Proof.
  intros F L.
  assert (A : assertFileSize (size f) = Throw "File size exceeds 200MB limit").
  { unfold assertFileSize. now rewrite (proj2 (Z.ltb_lt _ _) L). }
  assert (E : processShorts env req w =
              (cleanup w, Json 400 "FILE_TOO_LARGE" "File size exceeds 200MB limit")).
  { unfold processShorts, tryBlock. rewrite F. unfold bind at 1.
    rewrite pipeline_unfold, A. reflexivity. }
  rewrite E. repeat split; reflexivity.
Qed.
End ConversionPaths.

Lemma conversion_streams_sample :
  snd (processShorts (H:=integerRuntime) (calmEnv portrait90s) padRequest stagedWorkspace) =
    Stream (responseHeaders (H:=integerRuntime) clipUpload
              (convertedOutcome (parseProcessOptions (H:=integerRuntime) padBody)
                 portrait90s) 9)
           "converted" StreamEnd.
Proof.
  pose proof (conversion_streams_the_output (H:=integerRuntime) (calmEnv portrait90s)
                padRequest clipUpload stagedWorkspace portrait90s
                [("clip.mp4", FileNode "raw" false)] false "converted" "" ""
                eq_refl eq_refl eq_refl) as T.
  cbv zeta in T.
  destruct (T eq_refl eq_refl eq_refl eq_refl) as (headers & S & -> & _).
  exact S.
Defined.

Lemma failed_conversion_sample :
  isJson (snd (processShorts (H:=integerRuntime)
                 {| envTimeoutSec := Some "120"; probeResult := Normal portrait90s;
                    ffmpegOutput := Some "partial"; ffmpegFirst := TimerFired;
                    ffmpegLater := [Closed None "SIGKILL" ""]; streamEvent := StreamEnd |}
                 padRequest stagedWorkspace)) = true.
Proof.
  pose proof (failed_conversion_never_streams (H:=integerRuntime)
                {| envTimeoutSec := Some "120"; probeResult := Normal portrait90s;
                   ffmpegOutput := Some "partial"; ffmpegFirst := TimerFired;
                   ffmpegLater := [Closed None "SIGKILL" ""]; streamEvent := StreamEnd |}
                padRequest clipUpload stagedWorkspace portrait90s
                eq_refl eq_refl eq_refl) as T.
  cbv zeta in T. exact (proj1 (T eq_refl eq_refl)).
Defined.

Lemma oversized_upload_sample :
  processShorts (H:=integerRuntime) (calmEnv portrait30s)
    {| file := Some hugeUpload; body := padBody |} stagedWorkspace =
  ({| tmpDir := None; calls := [] |},
   Json 400 "FILE_TOO_LARGE" "File size exceeds 200MB limit").
Proof.
  destruct (oversized_upload_is_refused (H:=integerRuntime) (calmEnv portrait30s)
              {| file := Some hugeUpload; body := padBody |} hugeUpload stagedWorkspace
              eq_refl eq_refl) as (E & _).
  rewrite E. reflexivity.
Defined.

(** ** Removing the workspace, continued *)

Lemma rmEntries_normal_removable (es kept : list (string * Node)) (u : unit) :
  Forall (fun e => rmNode (snd e) = Removed -> removable (snd e) = true) es ->
  rmEntries es = (kept, Normal u) -> removableEntries es = true.
Proof.
  intros IH. induction IH as [|[name child] l Hc _ IHl]; [reflexivity|].
  cbn [rmEntries snd] in *. unfold removableEntries. cbn [forallb snd].
  fold (removableEntries l).
  destruct child as [c b|sub b].
  - destruct b; [discriminate|]. intros R. now rewrite (IHl R).
  - destruct (rmNode (DirNode sub b)); [|discriminate].
    intros R. now rewrite (Hc eq_refl), (IHl R).
Qed.

Lemma rmNode_removed_removable (n : Node) : rmNode n = Removed -> removable n = true.
Proof.
  induction n as [c b|es busy IH] using Node_nested_ind; [discriminate|].
  rewrite rmNode_dir, removable_dir.
  destruct (rmEntries es) as [kept [u|msg]] eqn:R; [|discriminate].
  destruct busy; [discriminate|]. intros _.
  now rewrite (rmEntries_normal_removable es kept u IH R).
Qed.

(** X17: [rmDirRecursive] completes without error exactly when the path
    is absent or is a directory in which nothing refuses its removal, and
    then the directory is gone; in every other case it throws and something
    is left. *)
Theorem rmDirRecursive_succeeds_iff_removable (dir : option Node) :
  (workspaceRemovable dir = true -> rmDirRecursive dir = (None, Normal tt)) /\
  (workspaceRemovable dir = false ->
     exists kept message, rmDirRecursive dir = (Some kept, Throw message)).
Proof.
  destruct dir as [[c b|es busy]|]; unfold workspaceRemovable.
  - split; [discriminate|]. intros _. simpl. eauto.
  - split.
    + intros R. unfold rmDirRecursive. now rewrite (rmNode_removable _ _ R).
    + intros R. unfold rmDirRecursive.
      destruct (rmNode (DirNode es busy)) as [|kept msg] eqn:E; [|eauto].
      apply rmNode_removed_removable in E. congruence.
  - split; [reflexivity|discriminate].
Qed.

(** ** The sanitizer, continued *)

Lemma mapString_allowed (s : string) :
  allChars allowedChar s = true ->
  mapString (fun c => if allowedChar c then c else underscore) s = s.
Proof.
  induction s as [|c s IH]; [reflexivity|].
  simpl. intros [Hc Hs]%andb_prop. now rewrite Hc, IH.
Qed.

Lemma slice0_short (n : nat) (s : string) :
  (String.length s <= n)%nat -> slice0 n s = s.
Proof.
  revert s. induction n as [|n IH]; intros [|c s]; simpl; try reflexivity; try lia.
  intros L. rewrite IH; [reflexivity|lia].
Qed.

(** X18: [sanitizeFilename] is idempotent, and a name that is already
    safe -- non-empty, at most 200 units, allowed characters only -- is
    returned unchanged. *)
Theorem sanitizeFilename_idempotent (name : string) :
  sanitizeFilename (sanitizeFilename name) = sanitizeFilename name /\
  (forall safe,
     allChars allowedChar safe = true ->
     (1 <= String.length safe <= 200)%nat ->
     sanitizeFilename safe = safe).
Proof.
  assert (Fix : forall safe,
            allChars allowedChar safe = true ->
            (1 <= String.length safe <= 200)%nat ->
            sanitizeFilename safe = safe).
  { intros safe A L. unfold sanitizeFilename.
    rewrite (mapString_allowed _ A), slice0_short by lia.
    destruct safe; [simpl in L; lia|reflexivity]. }
  split; [|exact Fix].
  apply Fix.
  - unfold sanitizeFilename.
    pose proof (allChars_slice0 allowedChar 200 _ (allChars_replaced name)) as A.
    destruct (slice0 200 _); [reflexivity|exact A].
  - unfold sanitizeFilename.
    pose proof (length_slice0 200
                  (mapString (fun c => if allowedChar c then c else underscore) name)) as L.
    destruct (slice0 200 _); simpl in *; lia.
Qed.

(** ** Request options, continued *)

Section OptionBounds.
Context `{JSRuntime}.

(** X19: the returned [maxDurationSec] always lies in [1, 300]. *)
Theorem parseProcessOptions_maxDuration_bounds (body : gmap string JSValue) :
  le (num 1) (maxDurationSec (parseProcessOptions body)) = true /\
  le (maxDurationSec (parseProcessOptions body)) (num 300) = true.
Proof.
  unfold parseProcessOptions. cbn [maxDurationSec].
  change (num 1) with (S754_finite false 4503599627370496 (-52)).
  change (num 300) with (S754_finite false 5277655813324800 (-44)).
  apply clamp_between; try reflexivity.
  now apply or_else_not_NaN.
Qed.

(** X20: whenever the [tolerance] of the body converts to a number (not
    NaN), the returned tolerance lies in [0.001, 0.5]. *)
Theorem parseProcessOptions_tolerance_bounds (body : gmap string JSValue) :
  isNaN (Number (prop body "tolerance")) = false ->
  le (decimal 1 1000) (tolerance (parseProcessOptions body)) = true /\
  le (tolerance (parseProcessOptions body)) (decimal 1 2) = true.
Proof.
  intros N. unfold parseProcessOptions, nullish_else. cbn [tolerance].
  change (decimal 1 1000) with (S754_finite false 4611686018427388 (-62)).
  change (decimal 1 2) with (S754_finite false 4503599627370496 (-53)).
  now apply clamp_between.
Qed.
End OptionBounds.

Lemma parseProcessOptions_tolerance_sample :
  le (decimal 1 1000) (tolerance (parseProcessOptions (H:=integerRuntime) thousandsBody)) = true /\
  le (tolerance (parseProcessOptions (H:=integerRuntime) thousandsBody)) (decimal 1 2) = true /\
  tolerance (parseProcessOptions (H:=integerRuntime) thousandsBody) = decimal 1 2.
Proof.
  destruct (parseProcessOptions_tolerance_bounds (H:=integerRuntime) thousandsBody eq_refl)
    as [L U].
  split; [exact L|]. split; [exact U|reflexivity].
Defined.

(** ** Eligibility, continued *)

(** X21: the verdict and the list agree: a clip is eligible exactly when
    no reason is listed; the list never repeats a label and has at most
    three. *)
Theorem validateShorts_eligible_iff_no_reason (meta : VideoMetadata) (options : ProcessOptions) :
  shortsEligible (validateShorts meta options) =
    isNil (reasons (validateShorts meta options)) /\
  NoDup (reasons (validateShorts meta options)) /\
  (length (reasons (validateShorts meta options)) <= 3)%nat.
Proof.
  unfold validateShorts. cbn [shortsEligible reasons].
  destruct (le (durationSec meta) (maxDurationSec options)),
           (gt (height meta) (width meta)),
           (le _ (tolerance options)); simpl;
    (split; [reflexivity|split; [|lia]]);
    repeat (apply NoDup_cons; split;
            [rewrite ?elem_of_cons, elem_of_nil; intuition discriminate|]);
    apply NoDup_nil_2.
Qed.

(** ** The names given to the upload *)

Lemma fold_indexedFrom (s : string) (i : Z) (acc : list (Z * ascii)) (st : ExtScan) :
  fold_left extnameStep (indexedFrom i s acc) st =
    fold_left extnameStep acc
      (fold_left extnameStep (indexedFrom i s []) st).
Proof.
  revert i acc. induction s as [|c s IH]; intros i acc; [reflexivity|].
  simpl indexedFrom. rewrite (IH (i + 1) ((i, c) :: acc)), (IH (i + 1) [(i, c)]).
  reflexivity.
Qed.

Lemma extname_scan (s : string) (i : Z) :
  fold_left extnameStep (indexedFrom i s [])
    {| startDot := -1; startPart := 0; extEnd := -1;
       extMatchedSlash := true; preDotState := 0; extDone := false |} =
  extScan i s.
Proof.
  revert i. induction s as [|c s IH]; intros i; [reflexivity|].
  simpl indexedFrom. rewrite fold_indexedFrom, IH. reflexivity.
Qed.

Lemma unitAt_here (i : Z) (c : ascii) (s : string) : unitAt i (String c s) i = Some c.
Proof.
  unfold unitAt. rewrite Z.ltb_irrefl, Z.sub_diag. reflexivity.
Qed.

Lemma unitAt_later (i j : Z) (c : ascii) (s : string) :
  i < j -> unitAt i (String c s) j = unitAt (i + 1) s j.
Proof.
  intros L. unfold unitAt.
  destruct (Z.ltb_spec j i); [lia|].
  destruct (Z.ltb_spec j (i + 1)); [lia|].
  replace (Z.to_nat (j - i)) with (S (Z.to_nat (j - (i + 1)))) by lia.
  reflexivity.
Qed.

Lemma extnameStep_inv (i : Z) (c : ascii) (s : string) (st : ExtScan) :
  0 <= i -> ScanInv (i + 1) s st -> ScanInv i (String c s) (extnameStep st (i, c)).
Proof.
  intros Hi (M & D & Dn & L & R & SD).
  unfold extnameStep, scanLow in *.
  assert (Later : forall lo, i + 1 <= lo ->
            (forall j c0, lo <= j < extEnd st ->
               unitAt (i + 1) s j = Some c0 -> notSlash c0 = true) ->
            forall j c0, lo <= j < extEnd st ->
              unitAt i (String c s) j = Some c0 -> notSlash c0 = true).
  { intros lo Hlo R' j c0 Hj U. rewrite unitAt_later in U by lia. eauto. }
  destruct (extDone st) eqn:Done.
  - (* the scan has stopped *)
    specialize (Dn eq_refl). specialize (L Dn).
    unfold ScanInv, scanLow. rewrite Done.
    repeat split; try tauto; try lia. now apply Later.
  - destruct (isSlash c) eqn:Sl.
    + destruct (extMatchedSlash st) eqn:Ms; cbn [negb].
      * (* a trailing slash *)
        assert (E : extEnd st = -1) by tauto.
        unfold ScanInv, scanLow. rewrite Done, Ms.
        repeat split; try tauto; try lia; try congruence;
          try (intros j c0 Hj; lia).
      * (* the slash that ends the component *)
        assert (E : extEnd st <> -1) by (intros E; apply M in E; discriminate).
        unfold ScanInv, scanLow. cbn.
        repeat split; try tauto; try lia; try congruence;
          try (apply Later; [lia|assumption]).
    + (* a unit of the component *)
      assert (NS : notSlash c = true) by (unfold notSlash; now rewrite Sl).
      destruct (Z.eqb_spec (extEnd st) (-1)) as [E|E].
      * assert (S0 : startDot st = -1) by tauto.
        rewrite S0. cbn [Z.eqb negb].
        destruct (isDot c); unfold ScanInv, scanLow; cbn;
          repeat split; try lia; try congruence;
          intros j c0 Hj U; assert (j = i) by lia; subst j;
          rewrite unitAt_here in U; congruence.
      * assert (Ms : extMatchedSlash st = false).
        { destruct (extMatchedSlash st); [|reflexivity]. exfalso. apply E. tauto. }
        specialize (L E).
        assert (Rng : forall j c0, i <= j < extEnd st ->
                        unitAt i (String c s) j = Some c0 -> notSlash c0 = true).
        { intros j c0 Hj U. destruct (Z.eq_dec j i) as [->|Ne].
          - rewrite unitAt_here in U. congruence.
          - rewrite unitAt_later in U by lia. apply (R j c0); [lia|exact U]. }
        destruct (isDot c); destruct (Z.eqb_spec (startDot st) (-1));
          unfold ScanInv, scanLow; cbn; rewrite ?Ms;
          repeat split; try tauto; try lia; try congruence; try exact Rng;
          try (intros S1; specialize (SD S1); lia).
Qed.

Lemma extScan_inv (s : string) (i : Z) : 0 <= i -> ScanInv i s (extScan i s).
Proof.
  revert i. induction s as [|c s IH]; intros i Hi.
  - unfold ScanInv, scanLow. simpl. repeat split; try tauto; try lia; try congruence.
  - simpl. apply extnameStep_inv; [assumption|]. apply IH. lia.
Qed.

Lemma allChars_substring (p : ascii -> bool) (s : string) (a n : nat) :
  (forall k c, (a <= k < a + n)%nat -> String.get k s = Some c -> p c = true) ->
  allChars p (substring a n s) = true.
Proof.
  revert a n. induction s as [|c s IH]; intros a n Hp.
  - destruct a, n; reflexivity.
  - destruct a as [|a].
    + destruct n as [|n]; [reflexivity|]. simpl.
      rewrite (Hp 0%nat c) by (simpl; auto; lia). simpl.
      apply IH. intros k c0 Hk G. apply (Hp (S k) c0); [lia|exact G].
    + simpl. apply IH. intros k c0 Hk G. apply (Hp (S k) c0); [lia|exact G].
Qed.

Lemma extname_no_slash (path : string) : allChars notSlash (extname path) = true.
Proof.
  unfold extname, backwards. rewrite extname_scan.
  destruct (extScan_inv path 0 (Z.le_refl 0)) as (_ & D & _ & L & R & SD).
  set (st := extScan 0 path) in *.
  destruct (_ || _ || _ || _) eqn:C; [reflexivity|].
  apply orb_false_elim in C as [C _]. apply orb_false_elim in C as [C _].
  apply orb_false_elim in C as [C1 C2].
  apply Z.eqb_neq in C1, C2.
  specialize (L C2). specialize (SD C1).
  unfold slice. apply allChars_substring. intros k c Hk G.
  apply (R (Z.of_nat k) c); [lia|].
  unfold unitAt. destruct (Z.ltb_spec (Z.of_nat k) 0); [lia|].
  rewrite Z.sub_0_r, Nat2Z.id. exact G.
Qed.

Lemma allChars_app (p : ascii -> bool) (a b : string) :
  allChars p (a ++ b) = allChars p a && allChars p b.
Proof.
  induction a as [|c a IH]; [reflexivity|]. simpl. now rewrite IH, andb_assoc.
Qed.

Lemma allChars_weaken (p q : ascii -> bool) (s : string) :
  (forall c, p c = true -> q c = true) -> allChars p s = true -> allChars q s = true.
Proof.
  intros W. induction s as [|c s IH]; [reflexivity|].
  simpl. intros [Hc Hs]%andb_prop. now rewrite (W c Hc), IH.
Qed.

Lemma allowed_notSlash (c : ascii) : allowedChar c = true -> notSlash c = true.
Proof.
  unfold allowedChar, notSlash, isSlash.
  destruct (Z.eqb_spec (code c) 47) as [E|]; [|reflexivity].
  rewrite E. discriminate.
Qed.

Lemma sanitizeFilename_no_slash (name : string) :
  allChars notSlash (sanitizeFilename name) = true.
Proof.
  apply (allChars_weaken allowedChar); [exact allowed_notSlash|].
  unfold sanitizeFilename.
  pose proof (allChars_slice0 allowedChar 200 _ (allChars_replaced name)) as A.
  destruct (slice0 200 _); [reflexivity|exact A].
Qed.

Lemma extension_no_slash (raw : string) :
  allChars notSlash (or_string (extname raw) ".mp4") = true.
Proof.
  pose proof (extname_no_slash raw) as E.
  destruct (extname raw); [reflexivity|exact E].
Qed.

(** X22: the name under which multer stages the upload, and the name put
    into Content-Disposition, never contain a slash, whatever name the
    caller sent: the staged file is an entry of the workspace directory
    itself. Neither name is empty. *)
Theorem upload_names_have_no_slash (originalName : string) (f : UploadedFile)
    (converted : bool) :
  allChars notSlash (storageFilename originalName) = true /\
  allChars notSlash (dispositionFilename f converted) = true /\
  (1 <= String.length (storageFilename originalName))%nat /\
  dispositionFilename
    {| originalname := originalName; filename := storageFilename originalName; size := 0 |}
    false = storageFilename originalName.
Proof.
  unfold storageFilename, dispositionFilename. cbv zeta.
  repeat split.
  - rewrite allChars_app, sanitizeFilename_no_slash, extension_no_slash. reflexivity.
  - destruct converted; rewrite !allChars_app, sanitizeFilename_no_slash,
      extension_no_slash; reflexivity.
  - set (base := sanitizeFilename _). set (ext := or_string (extname _) _).
    assert (1 <= String.length ext)%nat.
    { subst ext. destruct (extname _); simpl; lia. }
    clearbody base ext.
    induction base as [|a base IH];
      [change ("" ++ ext) with ext; lia|].
    change (String a base ++ ext) with (String a (base ++ ext)).
    cbn [String.length]. lia.
Qed.

(** ** Comparison of numbers, continued *)

Lemma le_orderKey (x y : number) :
  le x y = true <-> isNaN x = false /\ isNaN y = false /\ keyLe (orderKey x) (orderKey y).
Proof.
  unfold le, SFleb, keyLe.
  destruct x as [sx|sx| |sx mx ex], y as [sy|sy| |sy my ey]; simpl;
    try (destruct sx); try (destruct sy); simpl;
    try (split; [intros; repeat split; (discriminate || lia)
                |intros (? & ? & ?); (reflexivity || discriminate || lia)]).
  - (* both negative *)
    rewrite Pos.compare_cont_spec. simpl.
    destruct (Z.compare_spec ex ey); simpl;
      [destruct (Pos.compare_spec mx my); simpl| |];
      (split; [intros; repeat split; (discriminate || lia)
              |intros (? & ? & ?); (reflexivity || discriminate || lia)]).
  - (* both positive *)
    rewrite Pos.compare_cont_spec. simpl.
    destruct (Z.compare_spec ex ey); simpl;
      [destruct (Pos.compare_spec mx my); simpl| |];
      (split; [intros; repeat split; (discriminate || lia)
              |intros (? & ? & ?); (reflexivity || discriminate || lia)]).
Qed.

Lemma number_le_trans (x y z : number) : le x y = true -> le y z = true -> le x z = true.
Proof.
  rewrite !le_orderKey. unfold keyLe.
  intros (Nx & Ny & K1) (_ & Nz & K2). repeat split; try assumption. lia.
Qed.

Lemma compare_Eq_finite (x : number) (s : bool) (m : positive) (e : Z) :
  SFcompare x (S754_finite s m e) = Some Eq -> x = S754_finite s m e.
Proof.
  destruct x as [sx|sx| |sx mx ex]; simpl; try discriminate;
    try (destruct sx; discriminate); try (destruct s; discriminate).
  destruct sx, s; try discriminate.
  - destruct (Z.compare_spec ex e); try discriminate. subst.
    rewrite Pos.compare_cont_spec. simpl.
    destruct (Pos.compare_spec mx m); try discriminate. now subst.
  - destruct (Z.compare_spec ex e); try discriminate. subst.
    rewrite Pos.compare_cont_spec. simpl.
    destruct (Pos.compare_spec mx m); try discriminate. now subst.
Qed.

Lemma le_not_lt_eq (x : number) (s : bool) (m : positive) (e : Z) :
  le x (S754_finite s m e) = true -> lt x (S754_finite s m e) = false ->
  x = S754_finite s m e.
Proof.
  unfold le, lt, SFleb, SFltb. intros L N. apply compare_Eq_finite.
  destruct (SFcompare x (S754_finite s m e)) as [[]|]; congruence.
Qed.

Lemma le_not_lt_eq_l (x : number) (s : bool) (m : positive) (e : Z) :
  le (S754_finite s m e) x = true -> lt (S754_finite s m e) x = false ->
  x = S754_finite s m e.
Proof.
  unfold le, lt, SFleb, SFltb. intros L N. apply compare_Eq_finite.
  rewrite (SFcompare_antisym (S754_finite s m e) x).
  destruct (SFcompare (S754_finite s m e) x) as [[]|]; simpl; congruence.
Qed.

Lemma le_not_NaN_r (x y : number) : le x y = true -> isNaN y = false.
Proof. rewrite le_orderKey. tauto. Qed.

(** A number between the bounds passes the clamp unchanged. *)
Lemma clamp_keeps (slo shi : bool) (mlo mhi : positive) (elo ehi : Z) (x : number) :
  le (S754_finite slo mlo elo) x = true ->
  le x (S754_finite shi mhi ehi) = true ->
  Math_max (S754_finite slo mlo elo) (Math_min (S754_finite shi mhi ehi) x) = x.
Proof.
  intros L U.
  pose proof (le_not_NaN_r _ _ L) as N.
  rewrite (Math_min_finite _ _ _ _ N).
  destruct (lt x (S754_finite shi mhi ehi)) eqn:Hx.
  - rewrite (Math_max_finite _ _ _ _ N).
    destruct (lt (S754_finite slo mlo elo) x) eqn:Hl; [reflexivity|].
    symmetry. now apply le_not_lt_eq_l.
  - pose proof (le_not_lt_eq _ _ _ _ U Hx) as ->.
    rewrite Math_max_finite by reflexivity.
    destruct (lt (S754_finite slo mlo elo) (S754_finite shi mhi ehi)) eqn:Hl; [reflexivity|].
    symmetry. now apply le_not_lt_eq_l.
Qed.

Lemma le_one_truthy (x : number) : le (num 1) x = true -> truthy x = true.
Proof. destruct x as [s|s| |s m e]; try reflexivity; [destruct s|]; discriminate. Qed.

(** ** Request options and eligibility, continued *)

Section OptionsHonoured.
Context `{JSRuntime}.

(** X23: a numeric option supplied within its bounds is returned exactly
    as supplied: target width and height in [1, 4096], maximum duration in
    [1, 300], tolerance in [0.001, 0.5]. *)
Theorem parseProcessOptions_keeps_values_in_range (body : gmap string JSValue) :
  (le (num 1) (Number (prop body "targetWidth")) = true ->
   le (Number (prop body "targetWidth")) (num 4096) = true ->
   targetWidth (parseProcessOptions body) = Number (prop body "targetWidth")) /\
  (le (num 1) (Number (prop body "targetHeight")) = true ->
   le (Number (prop body "targetHeight")) (num 4096) = true ->
   targetHeight (parseProcessOptions body) = Number (prop body "targetHeight")) /\
  (le (num 1) (Number (prop body "maxDurationSec")) = true ->
   le (Number (prop body "maxDurationSec")) (num 300) = true ->
   maxDurationSec (parseProcessOptions body) = Number (prop body "maxDurationSec")) /\
  (le (decimal 1 1000) (Number (prop body "tolerance")) = true ->
   le (Number (prop body "tolerance")) (decimal 1 2) = true ->
   tolerance (parseProcessOptions body) = Number (prop body "tolerance")).
Proof.
  unfold parseProcessOptions, nullish_else.
  cbn [targetWidth targetHeight maxDurationSec tolerance].
  repeat split; intros L U.
  - unfold or_else. rewrite (le_one_truthy _ L).
    revert L U.
    change (num 1) with (S754_finite false 4503599627370496 (-52)).
    change (num 4096) with (S754_finite false 4503599627370496 (-40)).
    apply clamp_keeps.
  - unfold or_else. rewrite (le_one_truthy _ L).
    revert L U.
    change (num 1) with (S754_finite false 4503599627370496 (-52)).
    change (num 4096) with (S754_finite false 4503599627370496 (-40)).
    apply clamp_keeps.
  - unfold or_else. rewrite (le_one_truthy _ L).
    revert L U.
    change (num 1) with (S754_finite false 4503599627370496 (-52)).
    change (num 300) with (S754_finite false 5277655813324800 (-44)).
    apply clamp_keeps.
  - revert L U.
    change (decimal 1 1000) with (S754_finite false 4611686018427388 (-62)).
    change (decimal 1 2) with (S754_finite false 4503599627370496 (-53)).
    apply clamp_keeps.
Qed.
End OptionsHonoured.

Lemma parseProcessOptions_keeps_sample :
  targetWidth (parseProcessOptions (H:=integerRuntime) sizedBody) = num 720 /\
  targetHeight (parseProcessOptions (H:=integerRuntime) sizedBody) = num 1280.
Proof.
  destruct (parseProcessOptions_keeps_values_in_range (H:=integerRuntime) sizedBody)
    as (W & Hh & _).
  split.
  - exact (W eq_refl eq_refl).
  - exact (Hh eq_refl eq_refl).
Defined.

(** X24: more generous thresholds never take eligibility away: a clip
    eligible under some options is eligible under any options whose maximum
    duration and tolerance are at least as large. *)
Theorem validateShorts_monotone (meta : VideoMetadata) (o1 o2 : ProcessOptions) :
  le (maxDurationSec o1) (maxDurationSec o2) = true ->
  le (tolerance o1) (tolerance o2) = true ->
  shortsEligible (validateShorts meta o1) = true ->
  shortsEligible (validateShorts meta o2) = true.
Proof.
  intros D T. unfold validateShorts. cbn [shortsEligible].
  intros [[Hd Hv]%andb_prop Ha]%andb_prop.
  rewrite Hv, (number_le_trans _ _ _ Hd D), (number_le_trans _ _ _ Ha T). reflexivity.
Qed.

Lemma validateShorts_monotone_sample :
  shortsEligible (validateShorts portrait30s generousOptions) = true.
Proof.
  exact (validateShorts_monotone portrait30s DEFAULT_PROCESS_OPTIONS generousOptions
           eq_refl eq_refl eq_refl).
Defined.
